(** * Slack automation bot: Block Kit builders, event handlers and scheduled jobs

    A shallow embedding of [block_kit_components.py] and of the handlers and
    jobs of [app.py], with the properties of the specification proved about
    it.

    Python values are embedded as the JSON-like type [pyval]; a [dict] is an
    association list in insertion order, as Python keeps it.  Arguments the
    source annotates [str], [Optional[str]], [bool] or [Dict[str, str]] have
    those types here; payloads and stored entities are [pyval]s, and a
    subscript or method they do not support raises as it does in Python.

    Handlers run in a state-and-exception monad over a [World]: the
    automation store, the acknowledgements, the calls made on the platform
    client (each of which the platform may refuse, raising [SlackApiError]),
    the log, the clock read by [datetime.now()] and the environment. *)

From Stdlib Require Import String Ascii List Arith Lia Bool DecimalString.
From stdpp Require Import base list strings.
Import ListNotations.
Open Scope string_scope.
Local Set Warnings "-register-all".

(** ** Python values *)

Inductive pyval : Type :=
| PNone : pyval
| PBool : bool -> pyval
| PStr : string -> pyval
| PList : list pyval -> pyval
| PDict : list (string * pyval) -> pyval.

(** A [dict]: keys in insertion order. *)
Abbreviation pydict := (list (string * pyval)).

Module Dict.

Section Ops.
Context {V : Type}.

(** [d.get(k)] as an option: the value of the first entry for [k]. *)
Fixpoint lookup (k : string) (d : list (string * V)) : option V :=
  match d with
  | [] => None
  | (k', v) :: rest => if String.eqb k k' then Some v else lookup k rest
  end.

(** [d[k] = v]: overwrite in place when [k] is present, else add last. *)
Fixpoint set (k : string) (v : V) (d : list (string * V)) : list (string * V) :=
  match d with
  | [] => [(k, v)]
  | (k', v') :: rest =>
      if String.eqb k k' then (k, v) :: rest else (k', v') :: set k v rest
  end.

Definition keys (d : list (string * V)) : list string := map fst d.
End Ops.

End Dict.

(** Truth value of an object, as [if x:] tests it. *)
Definition truthy (v : pyval) : bool :=
  match v with
  | PNone => false
  | PBool b => b
  | PStr s => negb (String.eqb s "")
  | PList l => match l with [] => false | _ => true end
  | PDict d => match d with [] => false | _ => true end
  end.

(** Truth value of an [Optional[str]] argument. *)
Definition truthy_str (o : option string) : bool :=
  match o with
  | Some s => negb (String.eqb s "")
  | None => false
  end.

(** Truth value of an [Optional[Dict]] argument. *)
Definition truthy_opt (o : option pyval) : bool :=
  match o with
  | Some v => truthy v
  | None => false
  end.

(** [a == b].  Lists compare element-wise; dicts compare as mappings,
    whatever the insertion order. *)
Fixpoint py_eq (a b : pyval) {struct a} : bool :=
  match a, b with
  | PNone, PNone => true
  | PBool x, PBool y => Bool.eqb x y
  | PStr x, PStr y => String.eqb x y
  | PList xs, PList ys =>
      (fix all2 (xs ys : list pyval) {struct xs} : bool :=
         match xs, ys with
         | [], [] => true
         | x :: xs', y :: ys' => py_eq x y && all2 xs' ys'
         | _, _ => false
         end) xs ys
  | PDict xs, PDict ys =>
      Nat.eqb (length xs) (length ys) &&
      (fix sub (xs : pydict) {struct xs} : bool :=
         match xs with
         | [] => true
         | (k, v) :: xs' =>
             match Dict.lookup k ys with
             | Some v' => py_eq v v'
             | None => false
             end && sub xs'
         end) xs
  | _, _ => false
  end.

(** ** Exceptions *)

Inductive exn : Type :=
| KeyError (key : string)
| TypeError
| AttributeError
| IndexError
| SlackApiError.

Inductive result (A : Type) : Type :=
| Ok (a : A)
| Raise (e : exn).
Arguments Ok {A} a.
Arguments Raise {A} e.

Definition rbind {A B} (r : result A) (k : A -> result B) : result B :=
  match r with
  | Ok a => k a
  | Raise e => Raise e
  end.

Declare Scope result_scope.
Delimit Scope result_scope with result.
Notation "'try!' x := r 'in' k" := (rbind r (fun x => k))
  (at level 10, x name, r at level 100, k at level 200) : result_scope.

(** ** Strings *)

Definition nl : string := String (ascii_of_nat 10) "".

(** [needle in hay] on strings. *)
Fixpoint contains (needle hay : string) : bool :=
  match hay with
  | EmptyString => String.prefix needle hay
  | String _ rest => String.prefix needle hay || contains needle rest
  end.

(** [str(n)] for a non-negative integer. *)
Definition str_of_nat (n : nat) : string :=
  NilEmpty.string_of_uint (Nat.to_uint n).

(** Number of bytes of the UTF-8 sequence a leading byte opens. *)
Definition utf8_width (c : ascii) : nat :=
  let n := nat_of_ascii c in
  if Nat.ltb n 192 then 1
  else if Nat.ltb n 224 then 2
  else if Nat.ltb n 240 then 3
  else 4.

(** [s[0]]: the first character of a non-empty string. *)
Definition first_char (s : string) : string :=
  match s with
  | EmptyString => EmptyString
  | String c _ => String.substring 0 (utf8_width c) s
  end.

(** ** Subscripts and [.get] *)

(** [v[k]] for a string key. *)
Definition getitem (v : pyval) (k : string) : result pyval :=
  match v with
  | PDict d =>
      match Dict.lookup k d with
      | Some x => Ok x
      | None => Raise (KeyError k)
      end
  | _ => Raise TypeError
  end.

(** [v[0]]; the keys of a dict are strings, so a dict has no key [0]. *)
Definition getitem0 (v : pyval) : result pyval :=
  match v with
  | PList l =>
      match l with
      | x :: _ => Ok x
      | [] => Raise IndexError
      end
  | PStr s => if String.eqb s "" then Raise IndexError else Ok (PStr (first_char s))
  | PDict _ => Raise (KeyError "0")
  | _ => Raise TypeError
  end.

(** [v.get(k, default)]: only a dict has the method. *)
Definition py_get (v : pyval) (k : string) (default : pyval) : result pyval :=
  match v with
  | PDict d =>
      match Dict.lookup k d with
      | Some x => Ok x
      | None => Ok default
      end
  | _ => Raise AttributeError
  end.

(** [d[k]] on a [Dict[str, str]]. *)
Definition getitem_str (d : list (string * string)) (k : string) : result string :=
  match Dict.lookup k d with
  | Some x => Ok x
  | None => Raise (KeyError k)
  end.

(** * block_kit_components.py *)

(** The text objects the builders nest. *)
Definition plain_text (text : string) : pyval :=
  PDict [("type", PStr "plain_text"); ("text", PStr text)].

Definition mrkdwn (text : string) : pyval :=
  PDict [("type", PStr "mrkdwn"); ("text", PStr text)].

Definition create_header_block (text : string) : pyval :=
  PDict [("type", PStr "header");
         ("text", PDict [("type", PStr "plain_text");
                         ("text", PStr text);
                         ("emoji", PBool true)])].

Definition create_section_block (text : string) (accessory : option pyval) : pyval :=
  let block := [("type", PStr "section"); ("text", mrkdwn text)] in
  let block :=
    match accessory with
    | Some a => if truthy a then Dict.set "accessory" a block else block
    | None => block
    end in
  PDict block.

(** An [Optional[str]] argument stored under [k] when it is truthy. *)
Definition set_str (k : string) (o : option string) (d : pydict) : pydict :=
  match o with
  | Some s => if truthy (PStr s) then Dict.set k (PStr s) d else d
  | None => d
  end.

Definition create_button_block (text action_id : string)
    (value style url : option string) : pyval :=
  let button := [("type", PStr "button");
                 ("text", plain_text text);
                 ("action_id", PStr action_id)] in
  let button := set_str "value" value button in
  let button := set_str "style" style button in
  let button := set_str "url" url button in
  PDict button.

Definition create_actions_block (buttons : list pyval) : pyval :=
  PDict [("type", PStr "actions"); ("elements", PList buttons)].

Definition create_divider_block : pyval :=
  PDict [("type", PStr "divider")].

Definition create_context_block (elements : list pyval) : pyval :=
  PDict [("type", PStr "context"); ("elements", PList elements)].

Definition create_input_block (block_id label : string) (element : pyval)
    (hint : option string) (optional : bool) : pyval :=
  let block := [("type", PStr "input");
                ("block_id", PStr block_id);
                ("label", plain_text label);
                ("element", element)] in
  let block :=
    match hint with
    | Some h => if truthy (PStr h) then Dict.set "hint" (plain_text h) block else block
    | None => block
    end in
  let block := if optional then Dict.set "optional" (PBool true) block else block in
  PDict block.

Definition create_text_input (action_id : string)
    (placeholder initial_value : option string) (multiline : bool) : pyval :=
  let element := [("type", PStr "plain_text_input");
                  ("action_id", PStr action_id)] in
  let element :=
    match placeholder with
    | Some p =>
        if truthy (PStr p) then Dict.set "placeholder" (plain_text p) element
        else element
    | None => element
    end in
  let element := set_str "initial_value" initial_value element in
  let element := if multiline then Dict.set "multiline" (PBool true) element else element in
  PDict element.

(** The comprehension over [options]: [opt["text"]] and [opt["value"]] raise
    [KeyError] on an option that lacks the key. *)
Fixpoint select_options (options : list (list (string * string))) : result (list pyval) :=
  match options with
  | [] => Ok []
  | opt :: rest =>
      (try! text := getitem_str opt "text" in
       try! value := getitem_str opt "value" in
       try! tail := select_options rest in
       Ok (PDict [("text", plain_text text); ("value", PStr value)] :: tail))%result
  end.

Definition create_select_menu (action_id : string)
    (options : list (list (string * string))) (placeholder : string) : result pyval :=
  (try! opts := select_options options in
   Ok (PDict [("type", PStr "static_select");
              ("action_id", PStr action_id);
              ("placeholder", plain_text placeholder);
              ("options", PList opts)]))%result.

Definition create_datepicker (action_id : string) (initial_date : option string) : pyval :=
  let element := [("type", PStr "datepicker");
                  ("action_id", PStr action_id);
                  ("placeholder", plain_text "Select a date")] in
  let element := set_str "initial_date" initial_date element in
  PDict element.

(** [step.get("status") == "completed"] on a [Dict[str, str]]. *)
Definition status_completed (step : list (string * string)) : bool :=
  match Dict.lookup "status" step with
  | Some s => String.eqb s "completed"
  | None => false
  end.

(** The text of the section rendered for step number [i]. *)
Definition step_text (status_emoji : string) (i : nat) (name description : string) : string :=
  status_emoji ++ " *Step " ++ str_of_nat i ++ ":* " ++ name ++ nl ++ "_" ++ description ++ "_".

(** The loop [for i, step in enumerate(steps, 1)], from index [i] on, adding
    to [blocks]. *)
Fixpoint workflow_steps (i : nat) (steps : list (list (string * string)))
    (blocks : list pyval) : result (list pyval) :=
  match steps with
  | [] => Ok blocks
  | step :: rest =>
      let status_emoji := if status_completed step then "✅" else "⏳" in
      (try! name := getitem_str step "name" in
       let description := default "" (Dict.lookup "description" step) in
       workflow_steps (S i) rest
         (blocks ++ [create_section_block
                       (step_text status_emoji i name description) None]))%result
  end.

Definition create_workflow_message (title status description : string)
    (steps : list (list (string * string))) : result (list pyval) :=
  let blocks := [create_header_block ("🔄 " ++ title);
                 create_section_block
                   ("*Status:* " ++ status ++ nl ++ "*Description:* " ++ description) None;
                 create_divider_block;
                 create_header_block "Workflow Steps"] in
  workflow_steps 1 steps blocks.

Definition create_task_modal : result pyval :=
  (try! priority :=
     create_select_menu "priority_select"
       [[("text", "High"); ("value", "high")];
        [("text", "Medium"); ("value", "medium")];
        [("text", "Low"); ("value", "low")]]
       "Select priority" in
   Ok (PDict
         [("type", PStr "modal");
          ("callback_id", PStr "create_task_modal");
          ("title", plain_text "Create Task");
          ("submit", plain_text "Create");
          ("close", plain_text "Cancel");
          ("blocks",
           PList
             [create_input_block "task_title" "Task Title"
                (create_text_input "title_input" (Some "Enter task title") None false)
                None false;
              create_input_block "task_description" "Description"
                (create_text_input "description_input" (Some "Enter task description")
                   None true)
                None true;
              create_input_block "task_priority" "Priority" priority None false;
              create_input_block "task_due_date" "Due Date"
                (create_datepicker "due_date_picker" None)
                None true])]))%result.

Definition create_approval_message (requester request_type details request_id : string)
    : list pyval :=
  [create_header_block "📋 Approval Request";
   create_section_block
     ("*Requester:* " ++ requester ++ nl ++
      "*Type:* " ++ request_type ++ nl ++
      "*Details:* " ++ details) None;
   create_divider_block;
   create_actions_block
     [create_button_block "✅ Approve" "approve_request"
        (Some request_id) (Some "primary") None;
      create_button_block "❌ Reject" "reject_request"
        (Some request_id) (Some "danger") None;
      create_button_block "ℹ️ View Details" "view_details"
        (Some request_id) None None];
   create_context_block [mrkdwn ("Request ID: `" ++ request_id ++ "`")]].

Definition create_dashboard_home_tab : pyval :=
  PDict
    [("type", PStr "home");
     ("blocks",
      PList
        [create_header_block "🏠 Automation Dashboard";
         create_section_block
           "Welcome to your automation dashboard! Use the buttons below to manage your workflows."
           None;
         create_divider_block;
         create_section_block "*Quick Actions*" None;
         create_actions_block
           [create_button_block "📝 Create Task" "open_task_modal" None None None;
            create_button_block "🔄 View Workflows" "view_workflows" None None None;
            create_button_block "📊 View Reports" "view_reports" None None None];
         create_divider_block;
         create_section_block "*Recent Activity*" None;
         create_context_block [mrkdwn "No recent activity"]])].

(** * app.py *)

(** ** The world the handlers run in *)

(** [automation_store]: a dict with the three fixed keys. *)
Record Store : Type := mkStore {
  tasks : list pyval;
  workflows : list pyval;
  approvals : list pyval
}.

(** What the handlers read of a [datetime]: the renderings of its float
    timestamp, of [isoformat()] and of [strftime(fmt)]. *)
Record datetime : Type := mkDatetime {
  timestamp : string;
  isoformat : string;
  strftime : string -> string
}.

(** The calls made on the platform client. *)
Inductive Call : Type :=
| chat_postMessage (channel : pyval) (blocks : option (list pyval)) (text : string)
| chat_update (channel ts : pyval) (blocks : list pyval) (text : string)
| views_publish (user_id view : pyval)
| views_open (trigger_id view : pyval).

Inductive LogRecord : Type :=
| LogInfo (msg : string)
| LogError (msg : string) (e : exn).

Record World : Type := mkWorld {
  store : Store;
  (** number of [ack()] calls made *)
  acks : nat;
  (** calls made on the client, oldest first *)
  outbox : list Call;
  (** records handed to the logger, oldest first *)
  log : list LogRecord;
  (** [datetime.now()]: the reading of the [n]-th call *)
  clock : nat -> datetime;
  ticks : nat;
  (** whether the platform accepts a call; a refused call raises
      [SlackApiError] *)
  delivers : Call -> bool;
  (** [os.environ] *)
  environ : list (string * string)
}.

(** A computation: it may change the world and it returns or raises. *)
Definition M (A : Type) : Type := World -> World * result A.

Definition ret {A} (a : A) : M A := fun w => (w, Ok a).

Definition bind {A B} (m : M A) (k : A -> M B) : M B :=
  fun w =>
    match m w with
    | (w', Ok a) => k a w'
    | (w', Raise e) => (w', Raise e)
    end.

Definition lift {A} (r : result A) : M A := fun w => (w, r).

(** [try: m except Exception as e: h e]. *)
Definition try_except {A} (m : M A) (h : exn -> M A) : M A :=
  fun w =>
    match m w with
    | (w', Ok a) => (w', Ok a)
    | (w', Raise e) => h e w'
    end.

Declare Scope M_scope.
Delimit Scope M_scope with M.
Notation "'do!' x := m 'in' k" := (bind m (fun x => k))
  (at level 10, x name, m at level 100, k at level 200) : M_scope.
Notation "m ;; k" := (bind m (fun _ => k))
  (at level 100, k at level 200, right associativity) : M_scope.

Definition set_store (f : Store -> Store) : M unit :=
  fun w => (mkWorld (f (store w)) (acks w) (outbox w) (log w) (clock w) (ticks w)
              (delivers w) (environ w), Ok tt).

Definition get_store : M Store := fun w => (w, Ok (store w)).

Definition ack : M unit :=
  fun w => (mkWorld (store w) (S (acks w)) (outbox w) (log w) (clock w) (ticks w)
              (delivers w) (environ w), Ok tt).

(** The outcome of a client call in world [w]. *)
Definition call_outcome (w : World) (c : Call) : result unit :=
  if delivers w c then Ok tt else Raise SlackApiError.

Definition call (c : Call) : M unit :=
  fun w => (mkWorld (store w) (acks w) (outbox w ++ [c]) (log w) (clock w) (ticks w)
              (delivers w) (environ w), call_outcome w c).

Definition logger (r : LogRecord) : M unit :=
  fun w => (mkWorld (store w) (acks w) (outbox w) (log w ++ [r]) (clock w) (ticks w)
              (delivers w) (environ w), Ok tt).

(** [datetime.now()]. *)
Definition now : M datetime :=
  fun w => (mkWorld (store w) (acks w) (outbox w) (log w) (clock w) (S (ticks w))
              (delivers w) (environ w), Ok (clock w (ticks w))).

(** [os.getenv(k, default)]. *)
Definition getenv (k default : string) : M string :=
  fun w => (w, Ok (match Dict.lookup k (environ w) with
                   | Some v => v
                   | None => default
                   end)).

(** ** Built-ins taken as given *)

(** [str.lower] follows the Unicode case tables and [repr] the quoting rules
    of the interpreter; the handlers are embedded over any such pair. *)
Class PyBuiltins : Type := {
  str_lower : string -> string;
  py_repr : pyval -> string
}.

Section Handlers.
Context {builtins : PyBuiltins}.

(** [str(v)], what an f-string writes for [{v}]. *)
Definition py_str (v : pyval) : string :=
  match v with
  | PStr s => s
  | PNone => "None"
  | PBool true => "True"
  | PBool false => "False"
  | _ => py_repr v
  end.

(** [v.lower()]: only a str has the method. *)
Definition py_lower (v : pyval) : result string :=
  match v with
  | PStr s => Ok (str_lower s)
  | _ => Raise AttributeError
  end.

(** [automation_store[...].append(x)] *)
Definition append_task (t : pyval) : M unit :=
  set_store (fun s => mkStore (tasks s ++ [t]) (workflows s) (approvals s)).

Definition append_approval (a : pyval) : M unit :=
  set_store (fun s => mkStore (tasks s) (workflows s) (approvals s ++ [a])).

(** [x[k] = v] *)
Definition setitem (x : pyval) (k : string) (v : pyval) : result pyval :=
  match x with
  | PDict d => Ok (PDict (Dict.set k v d))
  | _ => Raise TypeError
  end.

(** [approval[k] = v], for the approval held at position [i] of
    [automation_store["approvals"]]. *)
Definition store_approval_item (i : nat) (k : string) (v : pyval) : M unit :=
  fun w =>
    match approvals (store w) !! i with
    | Some a =>
        match setitem a k v with
        | Ok a' =>
            set_store (fun s => mkStore (tasks s) (workflows s)
                                  (<[i := a']> (approvals s))) w
        | Raise e => (w, Raise e)
        end
    | None => (w, Raise IndexError)
    end.

(** *** Helper functions *)

Definition workflow_steps_example : list (list (string * string)) :=
  [[("name", "Data Collection"); ("description", "Collecting data from sources");
    ("status", "completed")];
   [("name", "Data Processing"); ("description", "Processing collected data");
    ("status", "completed")];
   [("name", "Report Generation"); ("description", "Generating final report");
    ("status", "in_progress")];
   [("name", "Notification"); ("description", "Sending notifications");
    ("status", "pending")]].

Definition send_workflow_example (channel : pyval) : M unit :=
  (do! blocks := lift (create_workflow_message "Daily Report Automation" "In Progress"
                         "Automated daily report generation workflow"
                         workflow_steps_example) in
   call (chat_postMessage channel (Some blocks) "Workflow status"))%M.

Definition send_task_example (channel : pyval) : M unit :=
  let blocks :=
    [create_header_block "📝 Task Management";
     create_section_block
       "Click the button below to create a new task using our interactive modal." None;
     create_actions_block
       [create_button_block "Create Task" "open_task_modal" None None None]] in
  call (chat_postMessage channel (Some blocks) "Task management").

(** The record [send_approval_example] stores. *)
Definition new_approval (request_id : string) (user_id : pyval) (created_at : string)
    : pyval :=
  PDict [("id", PStr request_id);
         ("requester", user_id);
         ("type", PStr "Budget Approval");
         ("details", PStr "Requesting approval for Q4 marketing budget");
         ("status", PStr "pending");
         ("created_at", PStr created_at)].

Definition send_approval_example (channel user_id : pyval) : M unit :=
  (do! t := now in
   let request_id := "req_" ++ timestamp t in
   do! t' := now in
   let approval := new_approval request_id user_id (isoformat t') in
   append_approval approval ;;
   let blocks :=
     create_approval_message ("<@" ++ py_str user_id ++ ">") "Budget Approval"
       "Requesting approval for Q4 marketing budget" request_id in
   call (chat_postMessage channel (Some blocks) "Approval request"))%M.

(** *** Slack event handlers *)

Definition handle_app_home_opened (event : pyval) : M unit :=
  try_except
    (do! user_id := lift (getitem event "user") in
     let view := create_dashboard_home_tab in
     call (views_publish user_id view) ;;
     logger (LogInfo ("Published home tab for user " ++ py_str user_id)))%M
    (fun e => logger (LogError "Error publishing home tab: " e)).

Definition greeting : string :=
  "Hello! 👋 Use `/automation` to get started with automations.".

Definition handle_message (event : pyval) : M unit :=
  (do! subtype := lift (py_get event "subtype" PNone) in
   if py_eq subtype (PStr "bot_message") then ret tt
   else
     do! raw := lift (py_get event "text" (PStr "")) in
     do! text := lift (py_lower raw) in
     do! channel := lift (getitem event "channel") in
     if contains "hello" text || contains "hi" text then
       call (chat_postMessage channel None greeting)
     else if contains "workflow" text then send_workflow_example channel
     else if contains "task" text then send_task_example channel
     else if contains "approval" text then
       do! user := lift (getitem event "user") in
       send_approval_example channel user
     else ret tt)%M.

Definition handle_automation_command (body : pyval) : M unit :=
  (ack ;;
   do! user_id := lift (getitem body "user_id") in
   do! channel_id := lift (getitem body "channel_id") in
   let blocks :=
     [create_header_block "🤖 Automation Commands";
      create_section_block
        ("Available automation commands:" ++ nl ++ nl ++
         "• *Workflow* - View workflow automation example" ++ nl ++
         "• *Task* - Create and manage tasks" ++ nl ++
         "• *Approval* - Request approvals" ++ nl ++
         "• *Schedule* - Schedule automated tasks") None;
      create_divider_block;
      create_actions_block
        [create_button_block "🔄 View Workflow" "view_workflow_example" None None None;
         create_button_block "📝 Create Task" "open_task_modal" None None None;
         create_button_block "📋 Request Approval" "request_approval" None None None]] in
   call (chat_postMessage channel_id (Some blocks) "Automation commands"))%M.

Definition handle_open_task_modal (body : pyval) : M unit :=
  (ack ;;
   do! trigger_id := lift (getitem body "trigger_id") in
   do! modal := lift create_task_modal in
   call (views_open trigger_id modal))%M.

(** [values.get(block, {}).get(action, {}).get(key, "")] *)
Definition get_optional (values : pyval) (block action key : string) : result pyval :=
  (try! b := py_get values block (PDict []) in
   try! a := py_get b action (PDict []) in
   py_get a key (PStr ""))%result.

(** The record [handle_task_modal_submit] stores. *)
Definition new_task (id : string) (title description priority due_date created_by : pyval)
    (created_at : string) : pyval :=
  PDict [("id", PStr id);
         ("title", title);
         ("description", description);
         ("priority", priority);
         ("due_date", due_date);
         ("created_by", created_by);
         ("created_at", PStr created_at);
         ("status", PStr "pending")].

(** The text of the confirmation section. *)
Definition task_created_text (task_title task_priority task_due_date : pyval) : string :=
  "*Title:* " ++ py_str task_title ++ nl ++
  "*Priority:* " ++ py_str task_priority ++ nl ++
  "*Due Date:* " ++ (if truthy task_due_date then py_str task_due_date else "Not set") ++ nl ++
  "*Status:* Pending".

Definition handle_task_modal_submit (body : pyval) : M unit :=
  (ack ;;
   do! view := lift (getitem body "view") in
   do! state := lift (getitem view "state") in
   do! values := lift (getitem state "values") in
   do! user := lift (getitem body "user") in
   do! user_id := lift (getitem user "id") in
   do! title_block := lift (getitem values "task_title") in
   do! title_input := lift (getitem title_block "title_input") in
   do! task_title := lift (getitem title_input "value") in
   do! task_description :=
     lift (get_optional values "task_description" "description_input" "value") in
   do! priority_block := lift (getitem values "task_priority") in
   do! priority_select := lift (getitem priority_block "priority_select") in
   do! selected_option := lift (getitem priority_select "selected_option") in
   do! task_priority := lift (getitem selected_option "value") in
   do! task_due_date :=
     lift (get_optional values "task_due_date" "due_date_picker" "selected_date") in
   do! t := now in
   do! t' := now in
   let task := new_task ("task_" ++ timestamp t) task_title task_description
                 task_priority task_due_date user_id (isoformat t') in
   append_task task ;;
   let blocks :=
     [create_header_block "✅ Task Created";
      create_section_block
        (task_created_text task_title task_priority task_due_date) None] in
   do! user' := lift (getitem body "user") in
   do! channel := lift (getitem user' "id") in
   call (chat_postMessage channel (Some blocks)
           ("Task created: " ++ py_str task_title)))%M.

(** [body[k]["id"]] *)
Definition body_id (body : pyval) (k : string) : result pyval :=
  (try! x := getitem body k in getitem x "id")%result.

Definition handle_view_workflow (body : pyval) : M unit :=
  (ack ;;
   do! channel := lift (body_id body "channel") in
   send_workflow_example channel)%M.

Definition handle_request_approval (body : pyval) : M unit :=
  (ack ;;
   do! user_id := lift (body_id body "user") in
   do! channel_id := lift (body_id body "channel") in
   send_approval_example channel_id user_id)%M.

(** [body["actions"][0]["value"]] *)
Definition action_value (body : pyval) : result pyval :=
  (try! actions := getitem body "actions" in
   try! action := getitem0 actions in
   getitem action "value")%result.

(** The loop [for approval in automation_store["approvals"]] over the
    approvals from position [i] on: the first one whose id equals
    [request_id] gets the three items written, and the loop breaks.
    [handle_approve] runs it with [verb] "approved", writing "status",
    "approved_by" and "approved_at"; [handle_reject] with "rejected",
    writing "status", "rejected_by" and "rejected_at". *)
Fixpoint resolve_loop (verb : string) (request_id user_id : pyval)
    (items : list pyval) (i : nat) : M unit :=
  match items with
  | [] => ret tt
  | approval :: rest =>
      (do! id := lift (getitem approval "id") in
       if py_eq id request_id then
         store_approval_item i "status" (PStr verb) ;;
         store_approval_item i (verb ++ "_by") user_id ;;
         do! t := now in
         store_approval_item i (verb ++ "_at") (PStr (isoformat t))
       else resolve_loop verb request_id user_id rest (S i))%M
  end.

Definition handle_approve (body : pyval) : M unit :=
  (ack ;;
   do! request_id := lift (action_value body) in
   do! user_id := lift (body_id body "user") in
   do! channel_id := lift (body_id body "channel") in
   do! s := get_store in
   resolve_loop "approved" request_id user_id (approvals s) 0 ;;
   do! t := now in
   let blocks :=
     [create_header_block "✅ Request Approved";
      create_section_block
        ("Request `" ++ py_str request_id ++ "` has been approved by <@" ++
         py_str user_id ++ ">") None;
      create_context_block
        [mrkdwn ("Approved at: " ++ strftime t "%Y-%m-%d %H:%M:%S")]] in
   do! message := lift (getitem body "message") in
   do! ts := lift (getitem message "ts") in
   call (chat_update channel_id ts blocks "Request approved"))%M.

Definition handle_reject (body : pyval) : M unit :=
  (ack ;;
   do! request_id := lift (action_value body) in
   do! user_id := lift (body_id body "user") in
   do! channel_id := lift (body_id body "channel") in
   do! s := get_store in
   resolve_loop "rejected" request_id user_id (approvals s) 0 ;;
   do! t := now in
   let blocks :=
     [create_header_block "❌ Request Rejected";
      create_section_block
        ("Request `" ++ py_str request_id ++ "` has been rejected by <@" ++
         py_str user_id ++ ">") None;
      create_context_block
        [mrkdwn ("Rejected at: " ++ strftime t "%Y-%m-%d %H:%M:%S")]] in
   do! message := lift (getitem body "message") in
   do! ts := lift (getitem message "ts") in
   call (chat_update channel_id ts blocks "Request rejected"))%M.

(** *** Scheduled automation tasks *)

(** [[x for x in items if x["status"] == "pending"]] *)
Fixpoint pending_of (items : list pyval) : result (list pyval) :=
  match items with
  | [] => Ok []
  | x :: rest =>
      (try! st := getitem x "status" in
       try! tail := pending_of rest in
       Ok (if py_eq st (PStr "pending") then x :: tail else tail))%result
  end.

Definition send_daily_report : M unit :=
  try_except
    (do! channel_id := getenv "SLACK_CHANNEL_ID" "#general" in
     do! t := now in
     do! s := get_store in
     do! pending := lift (pending_of (approvals s)) in
     let blocks :=
       [create_header_block "📊 Daily Automation Report";
        create_section_block
          ("*Date:* " ++ strftime t "%Y-%m-%d" ++ nl ++
           "*Total Tasks:* " ++ str_of_nat (length (tasks s)) ++ nl ++
           "*Pending Approvals:* " ++ str_of_nat (length pending) ++ nl ++
           "*Active Workflows:* " ++ str_of_nat (length (workflows s))) None;
        create_divider_block;
        create_section_block ("*Summary*" ++ nl ++ "All systems are running smoothly! ✅")
          None] in
     call (chat_postMessage (PStr channel_id) (Some blocks) "Daily automation report") ;;
     logger (LogInfo "Sent daily report"))%M
    (fun e => logger (LogError "Error sending daily report: " e)).

(** [[f"• {t['title']} (Priority: {t['priority']})" for t in items]] *)
Fixpoint task_lines (items : list pyval) : result (list string) :=
  match items with
  | [] => Ok []
  | t :: rest =>
      (try! title := getitem t "title" in
       try! priority := getitem t "priority" in
       try! tail := task_lines rest in
       Ok (("• " ++ py_str title ++ " (Priority: " ++ py_str priority ++ ")") :: tail))%result
  end.

Definition check_pending_tasks : M unit :=
  try_except
    (do! s := get_store in
     do! pending_tasks := lift (pending_of (tasks s)) in
     if truthy (PList pending_tasks) then
       do! channel_id := getenv "SLACK_CHANNEL_ID" "#general" in
       do! lines := lift (task_lines (take 5 pending_tasks)) in
       let task_list := String.concat nl lines in
       let blocks :=
         [create_header_block "⏰ Pending Tasks Reminder";
          create_section_block
            ("You have " ++ str_of_nat (length pending_tasks) ++ " pending task(s):" ++
             nl ++ nl ++ task_list) None;
          create_actions_block
            [create_button_block "View All Tasks" "view_tasks" None None None]] in
       call (chat_postMessage (PStr channel_id) (Some blocks) "Pending tasks reminder") ;;
       logger (LogInfo ("Sent reminder for " ++ str_of_nat (length pending_tasks) ++
                        " pending tasks"))
     else ret tt)%M
    (fun e => logger (LogError "Error checking pending tasks: " e)).

(** ** The dispatch table *)

(** What the platform adapter and the scheduler hand to the application:
    the listeners registered on [slack_app] and the two jobs added to the
    scheduler. *)
Inductive Invocation : Type :=
| Event_app_home_opened (event : pyval)
| Event_message (event : pyval)
| Command_automation (body : pyval)
| Action_open_task_modal (body : pyval)
| View_create_task_modal (body : pyval)
| Action_view_workflow_example (body : pyval)
| Action_request_approval (body : pyval)
| Action_approve_request (body : pyval)
| Action_reject_request (body : pyval)
| Job_daily_report
| Job_task_reminder.

Definition dispatch (inv : Invocation) : M unit :=
  match inv with
  | Event_app_home_opened event => handle_app_home_opened event
  | Event_message event => handle_message event
  | Command_automation body => handle_automation_command body
  | Action_open_task_modal body => handle_open_task_modal body
  | View_create_task_modal body => handle_task_modal_submit body
  | Action_view_workflow_example body => handle_view_workflow body
  | Action_request_approval body => handle_request_approval body
  | Action_approve_request body => handle_approve body
  | Action_reject_request body => handle_reject body
  | Job_daily_report => send_daily_report
  | Job_task_reminder => check_pending_tasks
  end.

End Handlers.

(** * config.py *)

(** The two ways [Settings()] raises [ValueError]: from [int(...)] on a
    port that is no integer literal, and from its own two checks. *)
Inductive ValueError : Type :=
| invalid_literal (literal : string)
| value_error (msg : string).

Record Settings (int : Type) : Type := mkSettings {
  slack_bot_token : string;
  slack_app_token : string;
  slack_signing_secret : string;
  port : int;
  host : string
}.
Arguments mkSettings {int}.
Arguments slack_bot_token {int}.
Arguments slack_app_token {int}.
Arguments slack_signing_secret {int}.
Arguments port {int}.
Arguments host {int}.

(** [os.getenv(k, default)] on the environment [load_dotenv()] left. *)
Definition env_get (env : list (string * string)) (k default : string) : string :=
  match Dict.lookup k env with
  | Some v => v
  | None => default
  end.

(** [Settings.__init__], over the integers [int] and the parser [py_int]
    of [int(s)], which gives [None] where [int(s)] raises. *)
Definition Settings_init {int : Type} (py_int : string -> option int)
    (env : list (string * string)) : ValueError + Settings int :=
  let bot_token := env_get env "SLACK_BOT_TOKEN" "" in
  let app_token := env_get env "SLACK_APP_TOKEN" "" in
  let signing_secret := env_get env "SLACK_SIGNING_SECRET" "" in
  match py_int (env_get env "PORT" "3000") with
  | None => inl (invalid_literal (env_get env "PORT" "3000"))
  | Some p =>
      let h := env_get env "HOST" "0.0.0.0" in
      if negb (truthy (PStr bot_token)) then
        inl (value_error "SLACK_BOT_TOKEN environment variable is required")
      else if negb (truthy (PStr signing_secret)) then
        inl (value_error "SLACK_SIGNING_SECRET environment variable is required")
      else inr (mkSettings bot_token app_token signing_secret p h)
  end.

(** * Vocabulary of the properties *)

(** [v.get(k)] and [list(v)] read back from a built value. *)
Definition py_lookup (k : string) (v : pyval) : option pyval :=
  match v with
  | PDict d => Dict.lookup k d
  | _ => None
  end.

Definition py_keys (v : pyval) : list string :=
  match v with
  | PDict d => Dict.keys d
  | _ => []
  end.

(** The text a mrkdwn string shows: the asterisks that mark bold type are
    not displayed. *)
Fixpoint mrkdwn_shown (s : string) : string :=
  match s with
  | EmptyString => EmptyString
  | String c rest =>
      if Ascii.eqb c "*" then mrkdwn_shown rest else String c (mrkdwn_shown rest)
  end.

(** [v[k1][k2]...] *)
Fixpoint getpath (v : pyval) (ks : list string) : result pyval :=
  match ks with
  | [] => Ok v
  | k :: rest => (try! x := getitem v k in getpath x rest)%result
  end.

(** The keys an optional argument contributes: its own when the argument is
    truthy, none otherwise. *)
Definition key_if (present : bool) (k : string) : list string :=
  if present then [k] else [].

(** The interactive elements of the actions block of a document. *)
Definition action_elements (document : list pyval) : list pyval :=
  let is_actions b :=
    match py_lookup "type" b with
    | Some t => py_eq t (PStr "actions")
    | None => false
    end in
  match List.find is_actions document with
  | Some b =>
      match py_lookup "elements" b with
      | Some (PList l) => l
      | _ => []
      end
  | None => []
  end.

(** An optional form field counts as omitted when the block, the action or
    the value key is missing from the form state. *)
Definition omitted (values : pyval) (block action key : string) : Prop :=
  exists d, values = PDict d /\
    (Dict.lookup block d = None \/
     exists b, Dict.lookup block d = Some (PDict b) /\
       (Dict.lookup action b = None \/
        exists a, Dict.lookup action b = Some (PDict a) /\ Dict.lookup key a = None)).

(** The position of the first approval whose id equals [request_id], as the
    loop of the approve and reject handlers finds it. *)
Fixpoint first_match (request_id : pyval) (items : list pyval) : result (option nat) :=
  match items with
  | [] => Ok None
  | a :: rest =>
      (try! id := getitem a "id" in
       if py_eq id request_id then Ok (Some 0)
       else try! r := first_match request_id rest in Ok (S <$> r))%result
  end.

(** The three items the handlers write into an approval. *)
Definition resolve_record (verb : string) (user_id : pyval) (at_time : string)
    (a : pyval) : pyval :=
  match a with
  | PDict d =>
      PDict (Dict.set (verb ++ "_at") (PStr at_time)
               (Dict.set (verb ++ "_by") user_id
                  (Dict.set "status" (PStr verb) d)))
  | _ => a
  end.

(** The world once the approval at position [i] is resolved: the record is
    rewritten in place and the clock has been read once. *)
Definition resolved_world (verb : string) (user_id : pyval) (i : nat) (w : World) : World :=
  mkWorld
    (mkStore (tasks (store w)) (workflows (store w))
       (alter (resolve_record verb user_id (isoformat (clock w (ticks w)))) i
          (approvals (store w))))
    (acks w) (outbox w) (log w) (clock w) (S (ticks w)) (delivers w) (environ w).

(** An approval that carries an id other than [request_id]. *)
Definition other_id (request_id a : pyval) : Prop :=
  exists id, getitem a "id" = Ok id /\ py_eq id request_id = false.

(** An approval that carries the id [request_id]. *)
Definition has_id (request_id a : pyval) : Prop :=
  exists id, getitem a "id" = Ok id /\ py_eq id request_id = true.

(** The world after [ack()], after a reading of the clock and after a call
    on the client. *)
Definition acked (w : World) : World :=
  mkWorld (store w) (S (acks w)) (outbox w) (log w) (clock w) (ticks w)
    (delivers w) (environ w).

Definition ticked (w : World) : World :=
  mkWorld (store w) (acks w) (outbox w) (log w) (clock w) (S (ticks w))
    (delivers w) (environ w).

Definition called (c : Call) (w : World) : World :=
  mkWorld (store w) (acks w) (outbox w ++ [c]) (log w) (clock w) (ticks w)
    (delivers w) (environ w).

(** What an approve or reject action must carry for the handler to read it:
    the request id on its first action, the acting user, the channel and the
    message the buttons came with. *)
Record action_payload (body request_id user_id channel_id ts : pyval) : Prop := {
  payload_value : action_value body = Ok request_id;
  payload_user : getpath body ["user"; "id"] = Ok user_id;
  payload_channel : getpath body ["channel"; "id"] = Ok channel_id;
  payload_ts : getpath body ["message"; "ts"] = Ok ts
}.

(** A stored task, as the modal handler builds it, is a dict that has a
    status, a title and a priority. *)
Definition task_wf (t : pyval) : Prop :=
  is_Some (py_lookup "status" t) /\ is_Some (py_lookup "title" t) /\
  is_Some (py_lookup "priority" t).

(** [t["status"] == "pending"] on a stored task. *)
Definition is_pending (t : pyval) : bool :=
  match py_lookup "status" t with
  | Some st => py_eq st (PStr "pending")
  | None => false
  end.

(** [s'] holds everything [s] holds, in place, and possibly more at the
    end of the tasks and of the approvals. *)
Definition extends (s s' : Store) : Prop :=
  tasks s `prefix_of` tasks s' /\
  workflows s' = workflows s /\
  approvals s `prefix_of` approvals s'.

(** [s'] is [s], but for at most one approval that went through the
    status transition of an approve or reject action. *)
Definition resolves (verb : string) (s s' : Store) : Prop :=
  tasks s' = tasks s /\
  workflows s' = workflows s /\
  (approvals s' = approvals s \/
   exists i user_id at_time,
     i < length (approvals s) /\
     approvals s' = alter (resolve_record verb user_id at_time) i (approvals s)).

(** A stored approval has an id and a status. *)
Definition approval_wf (a : pyval) : Prop :=
  is_Some (py_lookup "id" a) /\ is_Some (py_lookup "status" a).

(** The entities of a store are task and approval records. *)
Definition store_wf (s : Store) : Prop :=
  Forall task_wf (tasks s) /\ Forall approval_wf (approvals s).

(** A step that takes stores of records to stores of records. *)
Definition keeps_wf (s s' : Store) : Prop := store_wf s -> store_wf s'.

(** A computation every run of which takes the store along [R], whether
    it returns or raises. *)
Definition steps (R : relation Store) {A} (m : M A) : Prop :=
  forall w, R (store w) (store (fst (m w))).

(** The listeners that are passed [ack]: the command, the actions and the
    view submission. *)
Definition takes_ack (inv : Invocation) : bool :=
  match inv with
  | Event_app_home_opened _ | Event_message _ | Job_daily_report | Job_task_reminder => false
  | _ => true
  end.

(** A computation every run of which takes the world along [R], whether it
    returns or raises. *)
Definition wsteps (R : relation World) {A} (m : M A) : Prop :=
  forall w, R w (fst (m w)).

Definition same_acks : relation World := fun w w' => acks w' = acks w.

Definition same_outbox : relation World := fun w w' => outbox w' = outbox w.

(** A computation that makes at most [n] calls on the client, after the
    ones made before. *)
Definition sends_at_most (n : nat) {A} (m : M A) : Prop :=
  forall w, exists cs, outbox (fst (m w)) = (outbox w ++ cs)%list /\ length cs <= n.

(** A task as it is stored: a task record whose status is "pending". *)
Definition task_ok (t : pyval) : Prop :=
  task_wf t /\ py_lookup "status" t = Some (PStr "pending").

(** An approval as it is stored or resolved. *)
Definition approval_ok (a : pyval) : Prop :=
  is_Some (py_lookup "id" a) /\
  (py_lookup "status" a = Some (PStr "pending") \/
   py_lookup "status" a = Some (PStr "approved") \/
   py_lookup "status" a = Some (PStr "rejected")).

Definition store_ok (s : Store) : Prop :=
  Forall task_ok (tasks s) /\ workflows s = [] /\ Forall approval_ok (approvals s).

(** A step that keeps the property [I] of the store. *)
Definition keeps (I : Store -> Prop) : relation Store := fun s s' => I s -> I s'.

(** An entity with a status to read. *)
Definition has_status (x : pyval) : Prop := is_Some (py_lookup "status" x).

(** The option a select menu shows for [opt]. *)
Definition render_option (opt : list (string * string)) : pyval :=
  PDict [("text", plain_text (default "" (Dict.lookup "text" opt)));
         ("value", PStr (default "" (Dict.lookup "value" opt)))].

(** A select option with both of its keys. *)
Definition option_wf (opt : list (string * string)) : Prop :=
  is_Some (Dict.lookup "text" opt) /\ is_Some (Dict.lookup "value" opt).

Section Vocabulary.
Context {builtins : PyBuiltins}.

(** The message that replaces the approval card. *)
Definition approved_update (request_id user_id channel_id ts : pyval) (t : datetime)
    : Call :=
  chat_update channel_id ts
    [create_header_block "✅ Request Approved";
     create_section_block
       ("Request `" ++ py_str request_id ++ "` has been approved by <@" ++
        py_str user_id ++ ">") None;
     create_context_block [mrkdwn ("Approved at: " ++ strftime t "%Y-%m-%d %H:%M:%S")]]
    "Request approved".

Definition rejected_update (request_id user_id channel_id ts : pyval) (t : datetime)
    : Call :=
  chat_update channel_id ts
    [create_header_block "❌ Request Rejected";
     create_section_block
       ("Request `" ++ py_str request_id ++ "` has been rejected by <@" ++
        py_str user_id ++ ">") None;
     create_context_block [mrkdwn ("Rejected at: " ++ strftime t "%Y-%m-%d %H:%M:%S")]]
    "Request rejected".

(** The world the update of the card is sent from: acknowledged, and with
    the approval at [hit], if any, resolved. *)
Definition resolved_at (verb : string) (user_id : pyval) (hit : option nat) (w : World)
    : World :=
  match hit with
  | Some j => resolved_world verb user_id j (acked w)
  | None => acked w
  end.

(** The line of the reminder for one task. *)
Definition reminder_line (t : pyval) : string :=
  "• " ++ py_str (default PNone (py_lookup "title" t)) ++
  " (Priority: " ++ py_str (default PNone (py_lookup "priority" t)) ++ ")".

(** The prompt [send_task_example] posts. *)
Definition task_prompt (channel : pyval) : Call :=
  chat_postMessage channel
    (Some [create_header_block "📝 Task Management";
           create_section_block
             "Click the button below to create a new task using our interactive modal."
             None;
           create_actions_block
             [create_button_block "Create Task" "open_task_modal" None None None]])
    "Task management".

End Vocabulary.

Section MoreVocabulary.
Context {builtins : PyBuiltins}.

(** The worlds the application gets to: it starts on the empty store, and
    every listener and job run takes it further. *)
Inductive reachable : World -> Prop :=
| reachable_start w : store w = mkStore [] [] [] -> reachable w
| reachable_step inv w : reachable w -> reachable (fst (dispatch inv w)).

(** The daily report sent from world [w]. *)
Definition daily_report (w : World) : Call :=
  chat_postMessage
    (PStr (default "#general" (Dict.lookup "SLACK_CHANNEL_ID" (environ w))))
    (Some [create_header_block "📊 Daily Automation Report";
           create_section_block
             ("*Date:* " ++ strftime (clock w (ticks w)) "%Y-%m-%d" ++ nl ++
              "*Total Tasks:* " ++ str_of_nat (length (tasks (store w))) ++ nl ++
              "*Pending Approvals:* " ++
                str_of_nat (length (List.filter is_pending (approvals (store w)))) ++ nl ++
              "*Active Workflows:* " ++ str_of_nat (length (workflows (store w)))) None;
           create_divider_block;
           create_section_block ("*Summary*" ++ nl ++ "All systems are running smoothly! ✅")
             None])
    "Daily automation report".

(** The reminder sent for the pending tasks [pending] to [channel_id]. *)
Definition reminder_for (channel_id : string) (pending : list pyval) : Call :=
  chat_postMessage (PStr channel_id)
    (Some [create_header_block "⏰ Pending Tasks Reminder";
           create_section_block
             ("You have " ++ str_of_nat (length pending) ++ " pending task(s):" ++
              nl ++ nl ++ String.concat nl (reminder_line <$> take 5 pending)) None;
           create_actions_block
             [create_button_block "View All Tasks" "view_tasks" None None None]])
    "Pending tasks reminder".

End MoreVocabulary.

(** ** Worked inputs *)

(** Built-ins for evaluating inputs whose letters are ASCII and whose
    formatted values are strings. *)
Definition ascii_lower_char (c : ascii) : ascii :=
  let n := nat_of_ascii c in
  if Nat.leb 65 n && Nat.leb n 90 then ascii_of_nat (n + 32) else c.

Fixpoint ascii_lower (s : string) : string :=
  match s with
  | EmptyString => EmptyString
  | String c rest => String (ascii_lower_char c) (ascii_lower rest)
  end.

Definition ascii_builtins : PyBuiltins :=
  {| str_lower := ascii_lower; py_repr := fun _ => "<object>" |}.

Definition a_moment : datetime :=
  mkDatetime "1700000000.25" "2023-11-14T22:13:20.250000"
    (fun fmt => if String.eqb fmt "%Y-%m-%d" then "2023-11-14" else "2023-11-14 22:13:20").

(** A world on the store [s] whose platform accepts every call. *)
Definition world_on (s : Store) : World :=
  mkWorld s 0 [] [] (fun _ => a_moment) 0 (fun _ => true) [].

(** The submission of the task modal with title "Ship report", priority
    "high", and neither description nor due date. *)
Definition ship_report_values : pyval :=
  PDict [("task_title", PDict [("title_input", PDict [("value", PStr "Ship report")])]);
         ("task_priority",
          PDict [("priority_select",
                  PDict [("selected_option", PDict [("value", PStr "high")])])])].

Definition ship_report_body : pyval :=
  PDict [("user", PDict [("id", PStr "U1")]);
         ("view", PDict [("state", PDict [("values", ship_report_values)])])].

(** One pending approval, as [send_approval_example] stores it, and the
    action a click on its card carries. *)
Definition budget_approval : pyval :=
  PDict [("id", PStr "req_1700000000.25");
         ("requester", PStr "U1");
         ("type", PStr "Budget Approval");
         ("details", PStr "Requesting approval for Q4 marketing budget");
         ("status", PStr "pending");
         ("created_at", PStr "2023-11-14T22:13:20.250000")].

Definition click (request_id user_id : string) : pyval :=
  PDict [("actions", PList [PDict [("value", PStr request_id)]]);
         ("user", PDict [("id", PStr user_id)]);
         ("channel", PDict [("id", PStr "C1")]);
         ("message", PDict [("ts", PStr "1700000001.000100")])].

(** Seven pending tasks and one that is done. *)
Definition a_task (title priority status : string) : pyval :=
  PDict [("id", PStr ("task_" ++ title));
         ("title", PStr title);
         ("description", PStr "");
         ("priority", PStr priority);
         ("due_date", PStr "");
         ("created_by", PStr "U1");
         ("created_at", PStr "2023-11-14T22:13:20.250000");
         ("status", PStr status)].

Definition eight_tasks : list pyval :=
  [a_task "A" "high" "pending"; a_task "B" "low" "pending"; a_task "C" "low" "done";
   a_task "D" "medium" "pending"; a_task "E" "high" "pending"; a_task "F" "low" "pending";
   a_task "G" "low" "pending"; a_task "H" "high" "pending"].

(** An approve click that lost the message it came with. *)
Definition click_without_message (request_id user_id : string) : pyval :=
  PDict [("actions", PList [PDict [("value", PStr request_id)]]);
         ("user", PDict [("id", PStr user_id)]);
         ("channel", PDict [("id", PStr "C1")])].

(** A parser of port numbers for evaluating inputs: decimal digits only. *)
Fixpoint digits_value (acc : nat) (s : string) : option nat :=
  match s with
  | EmptyString => Some acc
  | String c rest =>
      let n := nat_of_ascii c in
      if Nat.leb 48 n && Nat.leb n 57 then digits_value (10 * acc + (n - 48)) rest
      else None
  end.

Definition parse_port (s : string) : option nat :=
  match s with
  | EmptyString => None
  | _ => digits_value 0 s
  end.

(** The submission of the task modal with title "Ship report", priority
    "high", and the description and the due date left blank: the form state
    holds both fields, with a null value. *)
Definition blank_fields_values : pyval :=
  PDict [("task_title",
          PDict [("title_input",
                  PDict [("type", PStr "plain_text_input"); ("value", PStr "Ship report")])]);
         ("task_description",
          PDict [("description_input",
                  PDict [("type", PStr "plain_text_input"); ("value", PNone)])]);
         ("task_priority",
          PDict [("priority_select",
                  PDict [("type", PStr "static_select");
                         ("selected_option",
                          PDict [("text", plain_text "High"); ("value", PStr "high")])])]);
         ("task_due_date",
          PDict [("due_date_picker",
                  PDict [("type", PStr "datepicker"); ("selected_date", PNone)])])].

Definition blank_fields_body : pyval :=
  PDict [("user", PDict [("id", PStr "U1")]);
         ("view", PDict [("state", PDict [("values", blank_fields_values)])])].

(** A world on the store [s] whose platform refuses every call. *)
Definition refusing_world_on (s : Store) : World :=
  mkWorld s 0 [] [] (fun _ => a_moment) 0 (fun _ => false) [].

(** * Properties *)

(** ** Dicts and strings *)

Section DictFacts.
Context {V : Type}.
Implicit Types (d : list (string * V)) (k : string) (v : V).

Lemma lookup_set_eq k v d : Dict.lookup k (Dict.set k v d) = Some v.
Proof.
  induction d as [|[k' v'] d IH]; cbn.
  - now rewrite String.eqb_refl.
  - destruct (String.eqb k k') eqn:E; cbn.
    + now rewrite String.eqb_refl.
    + now rewrite E.
Qed.

Lemma lookup_set_ne k k' v d :
  k <> k' -> Dict.lookup k' (Dict.set k v d) = Dict.lookup k' d.
Proof.
  intros Hne. induction d as [|[k0 v0] d IH]; cbn.
  - destruct (String.eqb k' k) eqn:E; [|reflexivity].
    apply String.eqb_eq in E. congruence.
  - destruct (String.eqb k k0) eqn:E; cbn.
    + apply String.eqb_eq in E. subst k0.
      destruct (String.eqb k' k) eqn:E'; [|reflexivity].
      apply String.eqb_eq in E'. congruence.
    + now rewrite IH.
Qed.

Lemma keys_set_present k v d :
  In k (Dict.keys d) -> Dict.keys (Dict.set k v d) = Dict.keys d.
Proof.
  induction d as [|[k' v'] d IH]; cbn; [tauto|].
  intros Hin. destruct (String.eqb k k') eqn:E; cbn.
  - apply String.eqb_eq in E. now subst.
  - f_equal. apply IH. destruct Hin as [->|]; [|assumption].
    now rewrite String.eqb_refl in E.
Qed.

Lemma keys_set_absent k v d :
  ~ In k (Dict.keys d) -> Dict.keys (Dict.set k v d) = (Dict.keys d ++ [k])%list.
Proof.
  induction d as [|[k' v'] d IH]; cbn; [reflexivity|].
  intros Hnin. destruct (String.eqb k k') eqn:E; cbn.
  - apply String.eqb_eq in E. subst k'. exfalso. apply Hnin. now left.
  - f_equal. apply IH. intros Hin. apply Hnin. now right.
Qed.

(** Writing an item never duplicates a key. *)
Lemma keys_set_NoDup k v d :
  List.NoDup (Dict.keys d) -> List.NoDup (Dict.keys (Dict.set k v d)).
Proof.
  intros Hnd. destruct (in_dec String.string_dec k (Dict.keys d)) as [Hin|Hnin].
  - now rewrite keys_set_present.
  - rewrite keys_set_absent by assumption.
    apply NoDup_ListNoDup, NoDup_app. apply NoDup_ListNoDup in Hnd.
    repeat split; [assumption| |apply NoDup_singleton].
    intros x Hx ->%list_elem_of_singleton. apply Hnin. now apply list_elem_of_In.
Qed.
End DictFacts.

Lemma prefix_app (s t : string) : String.prefix s (s ++ t) = true.
Proof.
  induction s as [|c s IH]; simpl.
  - now destruct t.
  - destruct (ascii_dec c c); [assumption|congruence].
Qed.

Lemma contains_prefix (needle hay : string) :
  String.prefix needle hay = true -> contains needle hay = true.
Proof.
  destruct hay; unfold contains; fold contains; intros ->; reflexivity.
Qed.

(** A string occurs in whatever is written around it. *)
Lemma contains_middle (needle pre post : string) :
  contains needle (pre ++ needle ++ post) = true.
Proof.
  induction pre as [|c pre IH].
  - change ("" ++ needle ++ post) with (needle ++ post).
    apply contains_prefix, prefix_app.
  - change (String c pre ++ needle ++ post) with (String c (pre ++ needle ++ post)).
    unfold contains; fold contains. rewrite IH. apply orb_true_r.
Qed.

Lemma contains_app_r (needle pre hay : string) :
  contains needle hay = true -> contains needle (pre ++ hay) = true.
Proof.
  intros H. induction pre as [|c pre IH]; [exact H|].
  change (String c pre ++ hay) with (String c (pre ++ hay)).
  unfold contains; fold contains. rewrite IH. apply orb_true_r.
Qed.

Lemma mrkdwn_shown_app (s t : string) :
  mrkdwn_shown (s ++ t) = mrkdwn_shown s ++ mrkdwn_shown t.
Proof.
  induction s as [|c s IH]; [reflexivity|].
  change (String c s ++ t) with (String c (s ++ t)). cbn [mrkdwn_shown].
  rewrite IH. now destruct (Ascii.eqb c "*").
Qed.

Lemma getpath_cons (v x : pyval) (k : string) (ks : list string) :
  getpath v (k :: ks) = Ok x ->
  exists y, getitem v k = Ok y /\ getpath y ks = Ok x.
Proof.
  cbn. destruct (getitem v k) as [y|e]; cbn; [|discriminate]. eauto.
Qed.

(** ** Block builders *)

Example truthy_str_absent : truthy_str None = false /\ truthy_str (Some "") = false.
Proof. split; reflexivity. Qed.

Lemma select_options_raises options :
  match select_options options with
  | Ok _ => True
  | Raise e => e = KeyError "text" \/ e = KeyError "value"
  end.
Proof.
  induction options as [|opt rest IH]; cbn; [exact I|].
  unfold getitem_str.
  destruct (Dict.lookup "text" opt); cbn; [|now left].
  destruct (Dict.lookup "value" opt); cbn; [|now right].
  destruct (select_options rest); cbn; [exact I|assumption].
Qed.

Ltac split_options :=
  repeat match goal with
         | o : option string |- _ => destruct o as [[|? ?]|]
         | o : option pyval |- _ => destruct o as [[|[]|[|? ?]|[|? ?]|[|? ?]]|]
         | b : bool |- _ => destruct b
         end.

(** C4. Every builder returns exactly its fixed keys followed by the keys of
    the optional arguments that were supplied with a truthy (non-empty,
    non-null) value, in the order the code tests them; an optional argument
    that is absent, empty or false leaves no key behind, and a key that is
    present holds the supplied value.  The builders are functions of their
    arguments alone. *)
Theorem optional_fields_omitted :
  (forall text,
     py_keys (create_header_block text) = ["type"; "text"]) /\
  (forall text accessory,
     py_keys (create_section_block text accessory) =
       (["type"; "text"] ++ key_if (truthy_opt accessory) "accessory")%list /\
     py_lookup "accessory" (create_section_block text accessory) =
       (if truthy_opt accessory then accessory else None)) /\
  (forall text action_id value style url,
     let button := create_button_block text action_id value style url in
     py_keys button =
       (["type"; "text"; "action_id"] ++ key_if (truthy_str value) "value" ++
        key_if (truthy_str style) "style" ++ key_if (truthy_str url) "url")%list /\
     py_lookup "value" button = (if truthy_str value then PStr <$> value else None) /\
     py_lookup "style" button = (if truthy_str style then PStr <$> style else None) /\
     py_lookup "url" button = (if truthy_str url then PStr <$> url else None)) /\
  (forall buttons,
     py_keys (create_actions_block buttons) = ["type"; "elements"]) /\
  py_keys create_divider_block = ["type"] /\
  (forall elements,
     py_keys (create_context_block elements) = ["type"; "elements"]) /\
  (forall block_id label element hint optional,
     let block := create_input_block block_id label element hint optional in
     py_keys block =
       (["type"; "block_id"; "label"; "element"] ++ key_if (truthy_str hint) "hint" ++
        key_if optional "optional")%list /\
     py_lookup "hint" block = (if truthy_str hint then plain_text <$> hint else None) /\
     py_lookup "optional" block = (if optional then Some (PBool true) else None)) /\
  (forall action_id placeholder initial_value multiline,
     let element := create_text_input action_id placeholder initial_value multiline in
     py_keys element =
       (["type"; "action_id"] ++ key_if (truthy_str placeholder) "placeholder" ++
        key_if (truthy_str initial_value) "initial_value" ++
        key_if multiline "multiline")%list /\
     py_lookup "placeholder" element =
       (if truthy_str placeholder then plain_text <$> placeholder else None) /\
     py_lookup "initial_value" element =
       (if truthy_str initial_value then PStr <$> initial_value else None) /\
     py_lookup "multiline" element = (if multiline then Some (PBool true) else None)) /\
  (forall action_id options placeholder,
     match create_select_menu action_id options placeholder with
     | Ok menu => py_keys menu = ["type"; "action_id"; "placeholder"; "options"]
     | Raise e => e = KeyError "text" \/ e = KeyError "value"
     end) /\
  (forall action_id initial_date,
     let element := create_datepicker action_id initial_date in
     py_keys element =
       (["type"; "action_id"; "placeholder"] ++
        key_if (truthy_str initial_date) "initial_date")%list /\
     py_lookup "initial_date" element =
       (if truthy_str initial_date then PStr <$> initial_date else None)).
Proof.
  repeat apply conj; try reflexivity.
  - intros text accessory. split_options; split; reflexivity.
  - intros text action_id value style url. split_options; repeat split; reflexivity.
  - intros block_id label element hint optional. split_options; repeat split; reflexivity.
  - intros action_id placeholder initial_value multiline.
    split_options; repeat split; reflexivity.
  - intros action_id options placeholder. unfold create_select_menu.
    pose proof (select_options_raises options) as Hopts.
    destruct (select_options options); cbn; [reflexivity|assumption].
  - intros action_id initial_date. split_options; split; reflexivity.
Qed.

(** ** Document builders *)

(** C5, counterexample: a step without a name is not rendered. *)
Lemma workflow_message_nameless_step :
  create_workflow_message "Deploy" "Running" "Nightly" [[("status", "completed")]]
    = Raise (KeyError "name") /\
  ~ (exists blocks,
       create_workflow_message "Deploy" "Running" "Nightly" [[("status", "completed")]]
         = Ok blocks).
Proof.
  split; [reflexivity|]. intros [blocks H]. discriminate H.
Qed.

Lemma workflow_steps_run (steps : list (list (string * string))) :
  Forall (fun step => is_Some (Dict.lookup "name" step)) steps ->
  forall i blocks,
    workflow_steps i steps blocks =
      Ok (blocks ++
          imap (fun j step =>
                  create_section_block
                    (step_text (if status_completed step then "✅" else "⏳") (i + j)
                       (default "" (Dict.lookup "name" step))
                       (default "" (Dict.lookup "description" step))) None) steps)%list.
Proof.
  induction 1 as [|step steps [name Hname] _ IH]; intros i blocks; cbn.
  - now rewrite app_nil_r.
  - unfold getitem_str. rewrite Hname. cbn. rewrite IH, <- app_assoc. cbn.
    rewrite Nat.add_0_r. do 3 f_equal. apply imap_ext. intros j x _. cbn.
    now rewrite Nat.add_succ_r.
Qed.

(** C5, as amended. When every step carries a name, the document is the
    title header, the status/description section, a divider and the
    "Workflow Steps" header, followed by one section per step in input
    order; the step at position [j] (counting from 0) is numbered [j + 1],
    and it gets the check mark exactly when its status is "completed", the
    hourglass for any other status and for none. *)
Theorem workflow_message_steps_rendered
    (title status description : string) (steps : list (list (string * string))) :
  Forall (fun step => is_Some (Dict.lookup "name" step)) steps ->
  create_workflow_message title status description steps =
    Ok ([create_header_block ("🔄 " ++ title);
         create_section_block
           ("*Status:* " ++ status ++ nl ++ "*Description:* " ++ description) None;
         create_divider_block;
         create_header_block "Workflow Steps"] ++
        imap (fun j step =>
                let glyph :=
                  if decide (Dict.lookup "status" step = Some "completed")
                  then "✅" else "⏳" in
                create_section_block
                  (glyph ++ " *Step " ++ str_of_nat (S j) ++ ":* " ++
                   default "" (Dict.lookup "name" step) ++ nl ++
                   "_" ++ default "" (Dict.lookup "description" step) ++ "_") None)
          steps)%list.
Proof.
  intros Hnames. unfold create_workflow_message.
  rewrite workflow_steps_run by assumption. do 2 f_equal.
  apply imap_ext. intros j step _. cbn. unfold step_text, status_completed.
  do 2 f_equal.
  destruct (Dict.lookup "status" step) as [st|] eqn:E.
  - destruct (String.eqb st "completed") eqn:Eq.
    + apply String.eqb_eq in Eq. subst st. now rewrite decide_True.
    + apply String.eqb_neq in Eq. rewrite decide_False; [reflexivity|congruence].
  - now rewrite decide_False.
Qed.

Lemma workflow_message_steps_rendered_witness :
  exists blocks,
    create_workflow_message "Deploy" "Running" "Nightly"
      [[("name", "Build"); ("status", "completed")]; [("name", "Ship")]] = Ok blocks /\
    length blocks = 6.
Proof.
  eexists. split.
  - apply (workflow_message_steps_rendered "Deploy" "Running" "Nightly"
             [[("name", "Build"); ("status", "completed")]; [("name", "Ship")]]).
    repeat constructor; eexists; reflexivity.
  - reflexivity.
Defined.

(** C6, counterexample: with the empty request id the three buttons carry no
    value at all, where the claim gives each the request id as value. *)
Lemma approval_message_empty_id :
  py_lookup "value" <$> action_elements (create_approval_message "U1" "Budget" "Q4" "")
    = [None; None; None] /\
  py_lookup "value" <$> action_elements (create_approval_message "U1" "Budget" "Q4" "")
    <> [Some (PStr ""); Some (PStr ""); Some (PStr "")].
Proof.
  split; [reflexivity|]. vm_compute. discriminate.
Qed.

Lemma button_with_value (text action_id value : string) (style : option string) :
  value <> "" ->
  create_button_block text action_id (Some value) style None =
    PDict ([("type", PStr "button"); ("text", plain_text text);
            ("action_id", PStr action_id); ("value", PStr value)] ++
           match style with
           | Some st => if truthy (PStr st) then [("style", PStr st)] else []
           | None => []
           end)%list.
Proof.
  intros Hne. unfold create_button_block, set_str. cbn [truthy].
  apply String.eqb_neq in Hne. rewrite Hne. cbn.
  destruct style as [st|]; [|reflexivity].
  destruct (String.eqb st ""); reflexivity.
Qed.

(** C6, as amended. For a non-empty request id the document is header,
    details section, divider, an actions block of exactly three buttons
    (approve with style primary, reject with style danger, view-details with
    no style key) each carrying the request id as value, and a context block
    whose text contains the request id. *)
Theorem approval_message_layout (requester request_type details request_id : string) :
  request_id <> "" ->
  create_approval_message requester request_type details request_id =
    [create_header_block "📋 Approval Request";
     create_section_block
       ("*Requester:* " ++ requester ++ nl ++ "*Type:* " ++ request_type ++ nl ++
        "*Details:* " ++ details) None;
     create_divider_block;
     PDict [("type", PStr "actions");
            ("elements",
             PList [PDict [("type", PStr "button");
                           ("text", plain_text "✅ Approve");
                           ("action_id", PStr "approve_request");
                           ("value", PStr request_id);
                           ("style", PStr "primary")];
                    PDict [("type", PStr "button");
                           ("text", plain_text "❌ Reject");
                           ("action_id", PStr "reject_request");
                           ("value", PStr request_id);
                           ("style", PStr "danger")];
                    PDict [("type", PStr "button");
                           ("text", plain_text "ℹ️ View Details");
                           ("action_id", PStr "view_details");
                           ("value", PStr request_id)]])];
     PDict [("type", PStr "context");
            ("elements",
             PList [PDict [("type", PStr "mrkdwn");
                           ("text", PStr ("Request ID: `" ++ request_id ++ "`"))]])]] /\
  contains request_id ("Request ID: `" ++ request_id ++ "`") = true.
Proof.
  intros Hne. split.
  - unfold create_approval_message, create_actions_block.
    rewrite !button_with_value by assumption. reflexivity.
  - apply contains_middle.
Qed.

Lemma approval_message_layout_witness :
  length (action_elements (create_approval_message "<@U1>" "Budget Approval" "Q4" "req_1.5"))
    = 3.
Proof.
  rewrite (proj1 (approval_message_layout "<@U1>" "Budget Approval" "Q4" "req_1.5"
                    ltac:(discriminate))).
  reflexivity.
Defined.

(** ** Handlers *)

(** Rewrite with the lookups known to succeed and evaluate. *)
Ltac run_eqs :=
  repeat match goal with
         | H : ?l = Ok _ |- context [?l] => rewrite H; cbn
         end.

(** Break a path lookup into its subscripts. *)
Ltac path_eqs :=
  repeat match goal with
         | H : getpath _ (_ :: _) = Ok _ |- _ =>
             apply getpath_cons in H; destruct H as (? & ? & H)
         | H : getpath _ [] = Ok _ |- _ => cbn in H; injection H as H; subst
         end.

Lemma first_match_none (request_id : pyval) (items : list pyval) :
  Forall (other_id request_id) items -> first_match request_id items = Ok None.
Proof.
  induction 1 as [|a items (id & Hid & Hne) _ IH]; cbn; [reflexivity|].
  rewrite Hid. cbn. rewrite Hne, IH. reflexivity.
Qed.

Lemma first_match_middle (request_id a : pyval) (pre post : list pyval) :
  Forall (other_id request_id) pre -> has_id request_id a ->
  first_match request_id (pre ++ a :: post)%list = Ok (Some (length pre)).
Proof.
  intros Hpre (id & Hid & Heq).
  induction Hpre as [|b pre (id' & Hid' & Hne) _ IH]; cbn.
  - rewrite Hid. cbn. now rewrite Heq.
  - rewrite Hid'. cbn. rewrite Hne, IH. reflexivity.
Qed.

Lemma alter_middle {A} (f : A -> A) (pre post : list A) (a : A) :
  alter f (length pre) (pre ++ a :: post)%list = (pre ++ f a :: post)%list.
Proof. induction pre as [|b pre IH]; cbn; [reflexivity|]. now rewrite IH. Qed.

Lemma getitem_lookup (t : pyval) (k : string) (x : pyval) :
  py_lookup k t = Some x -> getitem t k = Ok x.
Proof. destruct t; cbn; try discriminate. now intros ->. Qed.

Lemma pending_of_wf (items : list pyval) :
  Forall task_wf items ->
  pending_of items = Ok (List.filter is_pending items) /\
  Forall task_wf (List.filter is_pending items).
Proof.
  induction 1 as [|t items Ht _ [IH IHwf]]; cbn; [now split|].
  pose proof Ht as ([st Hst] & _ & _). rewrite (getitem_lookup _ _ _ Hst). cbn.
  rewrite IH. cbn.
  assert (is_pending t = py_eq st (PStr "pending")) as -> by (unfold is_pending; now rewrite Hst).
  destruct (py_eq st (PStr "pending")); split; auto.
Qed.

Section HandlerFacts.
Context {builtins : PyBuiltins}.

(** The loop of the approve and reject handlers, from position
    [length pre] on: it stops at the first approval with the requested id
    and resolves it, it passes over a store without one, and it raises
    where an approval has no id to read. *)
Lemma resolve_loop_run verb request_id user_id items :
  forall pre w,
    approvals (store w) = (pre ++ items)%list ->
    resolve_loop verb request_id user_id items (length pre) w =
      match first_match request_id items with
      | Ok (Some j) => (resolved_world verb user_id (length pre + j) w, Ok tt)
      | Ok None => (w, Ok tt)
      | Raise e => (w, Raise e)
      end.
Proof.
  induction items as [|a items IH]; intros pre w Hw; cbn; [reflexivity|].
  destruct (getitem a "id") as [id|e] eqn:Hid; cbn; [|reflexivity].
  destruct (py_eq id request_id) eqn:Heq.
  - destruct a as [| | | |d]; try discriminate Hid.
    unfold bind, store_approval_item, now, set_store. cbn.
    rewrite Hw, list_lookup_middle by reflexivity. cbn.
    rewrite list_lookup_insert_eq by (rewrite length_app; cbn; lia). cbn.
    rewrite list_lookup_insert_eq
      by (rewrite length_insert, length_app; cbn; lia). cbn.
    rewrite !list_insert_insert_eq. unfold resolved_world.
    rewrite Nat.add_0_r, Hw, alter_middle. cbn.
    rewrite insert_app_r_alt, Nat.sub_diag by lia. reflexivity.
  - replace (S (length pre)) with (length (pre ++ [a]))
      by (rewrite length_app; cbn; lia).
    rewrite IH by (now rewrite <- app_assoc).
    destruct (first_match request_id items) as [[j|]|e]; cbn; try reflexivity.
    do 2 f_equal. rewrite length_app. cbn. lia.
Qed.

Lemma get_optional_omitted values block action key :
  omitted values block action key ->
  get_optional values block action key = Ok (PStr "").
Proof.
  intros (d & -> & [Hb | (b & Hb & [Ha | (a & Ha & Hk)])]);
    unfold get_optional; cbn; rewrite Hb; cbn; try reflexivity;
    rewrite Ha; cbn; try reflexivity.
  now rewrite Hk.
Qed.

(** X14. A submission whose form state supplies title and priority and
    has no entry for the description and for the due date (the block, the
    action or the value key is missing) appends exactly one task with empty
    description and due date and status "pending", and sends the
    submitting user one confirmation whose section reads "Due Date: Not
    set"; the handler's outcome is the outcome of that send. *)
Theorem task_modal_submit_defaults
    (body values user_id title priority : pyval) (w : World) :
  getpath body ["view"; "state"; "values"] = Ok values ->
  getpath body ["user"; "id"] = Ok user_id ->
  getpath values ["task_title"; "title_input"; "value"] = Ok title ->
  getpath values ["task_priority"; "priority_select"; "selected_option"; "value"]
    = Ok priority ->
  omitted values "task_description" "description_input" "value" ->
  omitted values "task_due_date" "due_date_picker" "selected_date" ->
  let task :=
    PDict [("id", PStr ("task_" ++ timestamp (clock w (ticks w))));
           ("title", title);
           ("description", PStr "");
           ("priority", priority);
           ("due_date", PStr "");
           ("created_by", user_id);
           ("created_at", PStr (isoformat (clock w (S (ticks w)))));
           ("status", PStr "pending")] in
  let text :=
    "*Title:* " ++ py_str title ++ nl ++ "*Priority:* " ++ py_str priority ++ nl ++
    "*Due Date:* Not set" ++ nl ++ "*Status:* Pending" in
  let confirmation :=
    chat_postMessage user_id
      (Some [create_header_block "✅ Task Created"; create_section_block text None])
      ("Task created: " ++ py_str title) in
  let w' := fst (handle_task_modal_submit body w) in
  tasks (store w') = (tasks (store w) ++ [task])%list /\
  workflows (store w') = workflows (store w) /\
  approvals (store w') = approvals (store w) /\
  outbox w' = (outbox w ++ [confirmation])%list /\
  snd (handle_task_modal_submit body w) = call_outcome w confirmation /\
  contains "*Due Date:* Not set" text = true /\
  contains "Due Date: Not set" (mrkdwn_shown text) = true.
Proof.
  intros Hvalues Huser Htitle Hprio Hdesc Hdue.
  apply get_optional_omitted in Hdesc, Hdue.
  path_eqs. intros task text confirmation.
  assert (handle_task_modal_submit body w =
            (mkWorld (mkStore (tasks (store w) ++ [task]) (workflows (store w))
                        (approvals (store w)))
               (S (acks w)) (outbox w ++ [confirmation]) (log w) (clock w)
               (S (S (ticks w))) (delivers w) (environ w),
             call_outcome w confirmation)) as Hrun.
  { unfold handle_task_modal_submit, bind, lift, ack, now, append_task, set_store, call.
    cbn. run_eqs. reflexivity. }
  intros w'. subst w'. rewrite Hrun. cbn. repeat split.
  - subst text. do 5 apply contains_app_r. reflexivity.
  - subst text. rewrite !mrkdwn_shown_app. do 5 apply contains_app_r. reflexivity.
Qed.

Lemma handle_approve_run body request_id user_id channel_id ts w :
  action_payload body request_id user_id channel_id ts ->
  handle_approve body w =
    match first_match request_id (approvals (store w)) with
    | Ok hit =>
        let w1 := resolved_at "approved" user_id hit w in
        let c := approved_update request_id user_id channel_id ts (clock w1 (ticks w1)) in
        (called c (ticked w1), call_outcome w c)
    | Raise e => (acked w, Raise e)
    end.
Proof.
  intros [Hv Hu Hc Ht]. path_eqs.
  unfold handle_approve, bind, lift, ack, get_store, body_id. cbn. run_eqs.
  pose proof (resolve_loop_run "approved" request_id user_id (approvals (store w)) []
                (acked w) eq_refl) as Hloop.
  unfold acked in Hloop. cbn in Hloop. rewrite Hloop. clear Hloop.
  destruct (first_match request_id (approvals (store w))) as [[j|]|e]; cbn;
    run_eqs; reflexivity.
Qed.

Lemma handle_reject_run body request_id user_id channel_id ts w :
  action_payload body request_id user_id channel_id ts ->
  handle_reject body w =
    match first_match request_id (approvals (store w)) with
    | Ok hit =>
        let w1 := resolved_at "rejected" user_id hit w in
        let c := rejected_update request_id user_id channel_id ts (clock w1 (ticks w1)) in
        (called c (ticked w1), call_outcome w c)
    | Raise e => (acked w, Raise e)
    end.
Proof.
  intros [Hv Hu Hc Ht]. path_eqs.
  unfold handle_reject, bind, lift, ack, get_store, body_id. cbn. run_eqs.
  pose proof (resolve_loop_run "rejected" request_id user_id (approvals (store w)) []
                (acked w) eq_refl) as Hloop.
  unfold acked in Hloop. cbn in Hloop. rewrite Hloop. clear Hloop.
  destruct (first_match request_id (approvals (store w))) as [[j|]|e]; cbn;
    run_eqs; reflexivity.
Qed.

(** Writing the three items of a resolution leaves every other item of
    the record as it was. *)
Lemma resolve_record_frame verb user_id at_time a k :
  k <> "status" -> k <> verb ++ "_by" -> k <> verb ++ "_at" ->
  py_lookup k (resolve_record verb user_id at_time a) = py_lookup k a.
Proof.
  intros H1 H2 H3. destruct a as [| | | |d]; try reflexivity. cbn.
  rewrite !lookup_set_ne by congruence. reflexivity.
Qed.

(** Both handlers on a store whose first approval with the requested id
    is [a]: the record is rewritten in place, and the handler returns what
    the update of the card returns. *)
Lemma handle_approve_hit body request_id user_id channel_id ts w pre a post :
  action_payload body request_id user_id channel_id ts ->
  approvals (store w) = (pre ++ a :: post)%list ->
  Forall (other_id request_id) pre ->
  has_id request_id a ->
  store (fst (handle_approve body w)) =
    mkStore (tasks (store w)) (workflows (store w))
      (pre ++ resolve_record "approved" user_id (isoformat (clock w (ticks w))) a
           :: post) /\
  exists c, snd (handle_approve body w) = call_outcome w c.
Proof.
  intros Hbody Hw Hpre Ha. rewrite (handle_approve_run _ _ _ _ _ _ Hbody).
  rewrite Hw, (first_match_middle _ _ _ _ Hpre Ha). cbn.
  rewrite Hw, alter_middle. eauto.
Qed.

Lemma handle_reject_hit body request_id user_id channel_id ts w pre a post :
  action_payload body request_id user_id channel_id ts ->
  approvals (store w) = (pre ++ a :: post)%list ->
  Forall (other_id request_id) pre ->
  has_id request_id a ->
  store (fst (handle_reject body w)) =
    mkStore (tasks (store w)) (workflows (store w))
      (pre ++ resolve_record "rejected" user_id (isoformat (clock w (ticks w))) a
           :: post) /\
  exists c, snd (handle_reject body w) = call_outcome w c.
Proof.
  intros Hbody Hw Hpre Ha. rewrite (handle_reject_run _ _ _ _ _ _ Hbody).
  rewrite Hw, (first_match_middle _ _ _ _ Hpre Ha). cbn.
  rewrite Hw, alter_middle. eauto.
Qed.

Lemma call_outcome_raises w c e :
  call_outcome w c = Raise e -> e = SlackApiError.
Proof. unfold call_outcome. destruct (delivers w c); congruence. Qed.

(** A resolved record still carries its id. *)
Lemma resolve_record_has_id verb user_id at_time request_id a :
  verb = "approved" \/ verb = "rejected" ->
  has_id request_id a -> has_id request_id (resolve_record verb user_id at_time a).
Proof.
  intros Hverb (id & Hid & Heq). exists id. split; [|assumption].
  destruct a as [| | | |d]; try discriminate Hid.
  pose proof (resolve_record_frame verb user_id at_time (PDict d) "id") as Hf.
  unfold getitem in *. cbn in Hf. cbn.
  rewrite Hf; [assumption|discriminate| |]; destruct Hverb as [-> | ->]; discriminate.
Qed.

Lemma resolve_record_NoDup verb user_id at_time d :
  List.NoDup (Dict.keys d) ->
  List.NoDup (py_keys (resolve_record verb user_id at_time (PDict d))).
Proof. intros Hnd. cbn. now do 3 apply keys_set_NoDup. Qed.

(** C3, as amended. An approve or reject action whose request id matches
    no approval leaves the store as it was and raises nothing of its own:
    the card is updated once and the handler returns what that call
    returns, which is [SlackApiError] when the platform refuses it.  When
    approvals match, the one at the first matching position is rewritten
    and every other position is left alone. *)
Theorem unmatched_request_is_noop body request_id user_id channel_id ts w :
  action_payload body request_id user_id channel_id ts ->
  (Forall (other_id request_id) (approvals (store w)) ->
   let ca := approved_update request_id user_id channel_id ts (clock w (ticks w)) in
   let cr := rejected_update request_id user_id channel_id ts (clock w (ticks w)) in
   store (fst (handle_approve body w)) = store w /\
   outbox (fst (handle_approve body w)) = (outbox w ++ [ca])%list /\
   snd (handle_approve body w) = (if delivers w ca then Ok tt else Raise SlackApiError) /\
   store (fst (handle_reject body w)) = store w /\
   outbox (fst (handle_reject body w)) = (outbox w ++ [cr])%list /\
   snd (handle_reject body w) = (if delivers w cr then Ok tt else Raise SlackApiError)) /\
  (forall pre a post,
     approvals (store w) = (pre ++ a :: post)%list ->
     Forall (other_id request_id) pre ->
     has_id request_id a ->
     let now_iso := isoformat (clock w (ticks w)) in
     approvals (store (fst (handle_approve body w))) =
       (pre ++ resolve_record "approved" user_id now_iso a :: post)%list /\
     approvals (store (fst (handle_reject body w))) =
       (pre ++ resolve_record "rejected" user_id now_iso a :: post)%list).
Proof.
  intros Hbody. split.
  - intros Hnone ca cr.
    rewrite (handle_approve_run _ _ _ _ _ _ Hbody), (handle_reject_run _ _ _ _ _ _ Hbody).
    rewrite (first_match_none _ _ Hnone). cbn. repeat split.
  - intros pre a post Hw Hpre Ha now_iso.
    rewrite (handle_approve_run _ _ _ _ _ _ Hbody), (handle_reject_run _ _ _ _ _ _ Hbody).
    rewrite Hw, (first_match_middle _ _ _ _ Hpre Ha). cbn.
    rewrite Hw, !alter_middle. split; reflexivity.
Qed.

Lemma resolve_record_status verb user_id at_time d :
  verb = "approved" \/ verb = "rejected" ->
  py_lookup "status" (resolve_record verb user_id at_time (PDict d)) = Some (PStr verb) /\
  py_lookup (verb ++ "_by") (resolve_record verb user_id at_time (PDict d))
    = Some user_id /\
  py_lookup (verb ++ "_at") (resolve_record verb user_id at_time (PDict d))
    = Some (PStr at_time).
Proof.
  intros [-> | ->]; cbn; repeat split;
    rewrite ?lookup_set_eq, ?lookup_set_ne, ?lookup_set_eq by discriminate;
    rewrite ?lookup_set_ne, ?lookup_set_eq by discriminate; reflexivity.
Qed.

(** C10. When an approval carries the requested id, the approve handler
    writes the items status, approved_by and approved_at of the first such
    approval (the reject handler: status, rejected_by, rejected_at) and
    nothing else: every other item of that record, among them id,
    requester, type, details and created_at, every other approval, the
    tasks and the workflows stay as they were. *)
Theorem resolution_frame body request_id user_id channel_id ts w pre a post :
  action_payload body request_id user_id channel_id ts ->
  approvals (store w) = (pre ++ a :: post)%list ->
  Forall (other_id request_id) pre ->
  has_id request_id a ->
  let frame (verb : string) (s' : Store) :=
    tasks s' = tasks (store w) /\
    workflows s' = workflows (store w) /\
    exists a',
      approvals s' = (pre ++ a' :: post)%list /\
      (forall k, k <> "status" -> k <> verb ++ "_by" -> k <> verb ++ "_at" ->
                 py_lookup k a' = py_lookup k a) /\
      Forall (fun k => py_lookup k a' = py_lookup k a)
        ["id"; "requester"; "type"; "details"; "created_at"] /\
      py_lookup "status" a' = Some (PStr verb) /\
      py_lookup (verb ++ "_by") a' = Some user_id /\
      py_lookup (verb ++ "_at") a' = Some (PStr (isoformat (clock w (ticks w)))) in
  frame "approved" (store (fst (handle_approve body w))) /\
  frame "rejected" (store (fst (handle_reject body w))).
Proof.
  intros Hbody Hw Hpre Ha frame.
  assert (forall verb, verb = "approved" \/ verb = "rejected" ->
            frame verb (mkStore (tasks (store w)) (workflows (store w))
                          (pre ++ resolve_record verb user_id
                                    (isoformat (clock w (ticks w))) a :: post)))
    as Hframe.
  { intros verb Hverb. repeat split; cbn.
    exists (resolve_record verb user_id (isoformat (clock w (ticks w))) a).
    destruct Ha as (id & Hid & _).
    destruct a as [| | | |d]; try discriminate Hid.
    pose proof (resolve_record_status verb user_id (isoformat (clock w (ticks w))) d
                  Hverb) as (Hs & Hby & Hat).
    repeat split; try assumption.
    - intros k H1 H2 H3. now apply resolve_record_frame.
    - destruct Hverb as [-> | ->];
        repeat constructor; apply resolve_record_frame; discriminate. }
  rewrite (handle_approve_run _ _ _ _ _ _ Hbody), (handle_reject_run _ _ _ _ _ _ Hbody).
  rewrite Hw, (first_match_middle _ _ _ _ Hpre Ha). cbn.
  rewrite Hw, !alter_middle. split; apply Hframe; auto.
Qed.

(** C2, as amended. When the approve and the reject handler run, in
    either order, for the id of an approval that is the first in the store
    to carry it, neither raises anything but a failure of its own update
    call; each writes the status whatever the record holds by then, so the
    record is written twice: it holds the first handler's status after the
    first run and the last handler's status at the end, and its keys stay
    free of duplicates. *)
Theorem approve_reject_last_wins
    body_a body_r request_id user_a channel_a ts_a user_r channel_r ts_r w pre d post :
  action_payload body_a request_id user_a channel_a ts_a ->
  action_payload body_r request_id user_r channel_r ts_r ->
  approvals (store w) = (pre ++ PDict d :: post)%list ->
  Forall (other_id request_id) pre ->
  has_id request_id (PDict d) ->
  List.NoDup (Dict.keys d) ->
  let last_wins (first second : M unit) (verb1 verb2 : string) :=
    let w1 := fst (first w) in
    let w2 := fst (second w1) in
    (forall e, snd (first w) = Raise e -> e = SlackApiError) /\
    (forall e, snd (second w1) = Raise e -> e = SlackApiError) /\
    exists a1 a2,
      approvals (store w1) = (pre ++ a1 :: post)%list /\
      approvals (store w2) = (pre ++ a2 :: post)%list /\
      py_lookup "status" a1 = Some (PStr verb1) /\
      py_lookup "status" a2 = Some (PStr verb2) /\
      List.NoDup (py_keys a2) in
  last_wins (handle_approve body_a) (handle_reject body_r) "approved" "rejected" /\
  last_wins (handle_reject body_r) (handle_approve body_a) "rejected" "approved".
Proof.
  intros Ha Hr Hw Hpre Hid Hnd last_wins. subst last_wins. cbn zeta. split.
  - destruct (handle_approve_hit _ _ _ _ _ _ _ _ _ Ha Hw Hpre Hid) as (Hs1 & c1 & Hr1).
    set (a1 := resolve_record "approved" user_a (isoformat (clock w (ticks w))) (PDict d))
      in *.
    assert (approvals (store (fst (handle_approve body_a w))) = (pre ++ a1 :: post)%list)
      as Hw1 by now rewrite Hs1.
    assert (has_id request_id a1) as Hid1 by (apply resolve_record_has_id; auto).
    destruct (handle_reject_hit _ _ _ _ _ _ _ _ _ Hr Hw1 Hpre Hid1) as (Hs2 & c2 & Hr2).
    repeat split.
    + intros e. rewrite Hr1. apply call_outcome_raises.
    + intros e. rewrite Hr2. apply call_outcome_raises.
    + eexists a1, _. rewrite Hs2. repeat split; [exact Hw1|..].
      * apply (resolve_record_status "approved"); auto.
      * apply (resolve_record_status "rejected" _ _ (Dict.set _ _ _)); auto.
      * apply (resolve_record_NoDup "rejected" _ _ (Dict.set _ _ _)).
        now apply (resolve_record_NoDup "approved").
  - destruct (handle_reject_hit _ _ _ _ _ _ _ _ _ Hr Hw Hpre Hid) as (Hs1 & c1 & Hr1).
    set (a1 := resolve_record "rejected" user_r (isoformat (clock w (ticks w))) (PDict d))
      in *.
    assert (approvals (store (fst (handle_reject body_r w))) = (pre ++ a1 :: post)%list)
      as Hw1 by now rewrite Hs1.
    assert (has_id request_id a1) as Hid1 by (apply resolve_record_has_id; auto).
    destruct (handle_approve_hit _ _ _ _ _ _ _ _ _ Ha Hw1 Hpre Hid1) as (Hs2 & c2 & Hr2).
    repeat split.
    + intros e. rewrite Hr1. apply call_outcome_raises.
    + intros e. rewrite Hr2. apply call_outcome_raises.
    + eexists a1, _. rewrite Hs2. repeat split; [exact Hw1|..].
      * apply (resolve_record_status "rejected"); auto.
      * apply (resolve_record_status "approved" _ _ (Dict.set _ _ _)); auto.
      * apply (resolve_record_NoDup "approved" _ _ (Dict.set _ _ _)).
        now apply (resolve_record_NoDup "rejected").
Qed.

Lemma task_lines_wf (items : list pyval) :
  Forall task_wf items -> task_lines items = Ok (reminder_line <$> items).
Proof.
  induction 1 as [|t items (_ & [ti Hti] & [pr Hpr]) _ IH]; cbn; [reflexivity|].
  rewrite (getitem_lookup _ _ _ Hti), (getitem_lookup _ _ _ Hpr). cbn.
  rewrite IH. unfold reminder_line. now rewrite Hti, Hpr.
Qed.

(** C7. The hourly job leaves the store alone and never raises.  With no
    pending task it sends nothing; otherwise it sends one reminder to the
    configured channel whose section counts every pending task and lists
    title and priority of the first five only, in store order, above a
    "View All Tasks" button. *)
Theorem pending_tasks_reminder (w : World) :
  Forall task_wf (tasks (store w)) ->
  let pending := List.filter is_pending (tasks (store w)) in
  let channel_id := default "#general" (Dict.lookup "SLACK_CHANNEL_ID" (environ w)) in
  let reminder :=
    chat_postMessage (PStr channel_id)
      (Some [create_header_block "⏰ Pending Tasks Reminder";
             create_section_block
               ("You have " ++ str_of_nat (length pending) ++ " pending task(s):" ++
                nl ++ nl ++ String.concat nl (reminder_line <$> take 5 pending)) None;
             create_actions_block
               [create_button_block "View All Tasks" "view_tasks" None None None]])
      "Pending tasks reminder" in
  let w' := fst (check_pending_tasks w) in
  store w' = store w /\
  snd (check_pending_tasks w) = Ok tt /\
  outbox w' = (if decide (pending = []) then outbox w else outbox w ++ [reminder])%list.
Proof.
  intros Hwf pending channel_id reminder.
  destruct (pending_of_wf _ Hwf) as [Hpending Hpwf]. fold pending in Hpending, Hpwf.
  unfold check_pending_tasks, try_except, bind, lift, get_store, getenv, call, logger.
  cbn. rewrite Hpending. cbn -[take task_lines].
  destruct pending as [|t rest] eqn:Ep; cbn -[take task_lines];
    [now rewrite decide_True|].
  rewrite decide_False by discriminate.
  rewrite (task_lines_wf (take 5 (t :: rest))) by now apply Forall_take.
  cbn -[take]. fold channel_id. unfold call_outcome.
  destruct (delivers w _); repeat split.
Qed.

(** C8. A message event of subtype "bot_message" is ignored.  Any other
    one is answered by the first rule that its lowercased text meets:
    "hello" or "hi" occurs: the greeting; else "workflow" occurs: the
    workflow message of the fixed example steps; else "task" occurs: the
    task prompt; else "approval" occurs: one pending approval is stored
    and the approval message sent; else nothing is sent and nothing
    stored.  Each reply is one call, and its outcome is the handler's. *)
Theorem message_dispatch (e : pydict) (raw : string) (channel : pyval) (w : World) :
  let event := PDict e in
  let subtype := default PNone (Dict.lookup "subtype" e) in
  let text := str_lower raw in
  (py_eq subtype (PStr "bot_message") = true ->
   handle_message event w = (w, Ok tt)) /\
  (py_eq subtype (PStr "bot_message") = false ->
   default (PStr "") (Dict.lookup "text" e) = PStr raw ->
   Dict.lookup "channel" e = Some channel ->
   (contains "hello" text = true \/ contains "hi" text = true ->
    let c := chat_postMessage channel None greeting in
    handle_message event w = (called c w, call_outcome w c)) /\
   (contains "hello" text = false -> contains "hi" text = false ->
    contains "workflow" text = true ->
    exists blocks,
      create_workflow_message "Daily Report Automation" "In Progress"
        "Automated daily report generation workflow" workflow_steps_example
        = Ok blocks /\
      let c := chat_postMessage channel (Some blocks) "Workflow status" in
      handle_message event w = (called c w, call_outcome w c)) /\
   (contains "hello" text = false -> contains "hi" text = false ->
    contains "workflow" text = false -> contains "task" text = true ->
    handle_message event w =
      (called (task_prompt channel) w, call_outcome w (task_prompt channel))) /\
   (contains "hello" text = false -> contains "hi" text = false ->
    contains "workflow" text = false -> contains "task" text = false ->
    contains "approval" text = true ->
    forall user, Dict.lookup "user" e = Some user ->
      let request_id := "req_" ++ timestamp (clock w (ticks w)) in
      let approval :=
        PDict [("id", PStr request_id);
               ("requester", user);
               ("type", PStr "Budget Approval");
               ("details", PStr "Requesting approval for Q4 marketing budget");
               ("status", PStr "pending");
               ("created_at", PStr (isoformat (clock w (S (ticks w)))))] in
      let c :=
        chat_postMessage channel
          (Some (create_approval_message ("<@" ++ py_str user ++ ">") "Budget Approval"
                   "Requesting approval for Q4 marketing budget" request_id))
          "Approval request" in
      handle_message event w =
        (mkWorld
           (mkStore (tasks (store w)) (workflows (store w))
              (approvals (store w) ++ [approval]))
           (acks w) (outbox w ++ [c]) (log w) (clock w) (S (S (ticks w)))
           (delivers w) (environ w),
         call_outcome w c)) /\
   (contains "hello" text = false -> contains "hi" text = false ->
    contains "workflow" text = false -> contains "task" text = false ->
    contains "approval" text = false ->
    handle_message event w = (w, Ok tt))).
Proof.
  intros event subtype text. split.
  - intros Hbot. unfold handle_message, bind, lift. cbn.
    assert (match Dict.lookup "subtype" e with
            | Some x => Ok x
            | None => Ok PNone
            end = Ok subtype) as -> by (subst subtype; now destruct (Dict.lookup _ e)).
    now rewrite Hbot.
  - intros Hbot Hraw Hchannel.
    assert (handle_message event w =
                (if contains "hello" text || contains "hi" text then
                   call (chat_postMessage channel None greeting)
                 else if contains "workflow" text then send_workflow_example channel
                 else if contains "task" text then send_task_example channel
                 else if contains "approval" text then
                   bind (lift (getitem event "user"))
                     (fun user => send_approval_example channel user)
                 else ret tt) w) as Hrun.
    { unfold handle_message, bind at 1 2 3 4, lift at 1 2 3 4. cbn.
      assert (match Dict.lookup "subtype" e with
              | Some x => Ok x
              | None => Ok PNone
              end = Ok subtype) as -> by (subst subtype; now destruct (Dict.lookup _ e)).
      rewrite Hbot.
      assert (match Dict.lookup "text" e with
              | Some x => Ok x
              | None => Ok (PStr "")
              end = Ok (PStr raw)) as ->
          by (rewrite <- Hraw; now destruct (Dict.lookup "text" e)).
      cbn. rewrite Hchannel. reflexivity. }
    rewrite Hrun. clear Hrun. fold text.
    repeat apply conj.
    + intros Hhi c.
      assert (contains "hello" text || contains "hi" text = true) as ->
          by (destruct Hhi as [-> | ->]; [reflexivity|apply orb_true_r]).
      reflexivity.
    + intros -> -> ->. eexists. split; [reflexivity|]. reflexivity.
    + intros -> -> -> ->. reflexivity.
    + intros -> -> -> -> -> user Huser. cbn. unfold bind, lift. cbn.
      rewrite Huser. reflexivity.
    + intros -> -> -> -> ->. reflexivity.
Qed.

End HandlerFacts.

(** ** Steps of the store *)

#[export] Instance extends_preorder : PreOrder extends.
Proof.
  split.
  - intros s. repeat split; reflexivity.
  - intros s1 s2 s3 (Ht & Hw & Ha) (Ht' & Hw' & Ha'). repeat split.
    + now transitivity (tasks s2).
    + congruence.
    + now transitivity (approvals s2).
Qed.

#[export] Instance keeps_wf_preorder : PreOrder keeps_wf.
Proof. split; unfold keeps_wf; [intros s|intros s1 s2 s3]; auto. Qed.

Section Steps.
Context (R : relation Store) `{!PreOrder R}.

Lemma steps_ret {A} (a : A) : steps R (ret a).
Proof. intros w. reflexivity. Qed.

Lemma steps_lift {A} (r : result A) : steps R (lift r).
Proof. intros w. reflexivity. Qed.

Lemma steps_bind {A B} (m : M A) (k : A -> M B) :
  steps R m -> (forall a, steps R (k a)) -> steps R (bind m k).
Proof.
  intros Hm Hk w. unfold bind. specialize (Hm w).
  destruct (m w) as [w' [a|e]]; cbn in *; [|assumption].
  etransitivity; [exact Hm|apply Hk].
Qed.

Lemma steps_try {A} (m : M A) (h : exn -> M A) :
  steps R m -> (forall e, steps R (h e)) -> steps R (try_except m h).
Proof.
  intros Hm Hh w. unfold try_except. specialize (Hm w).
  destruct (m w) as [w' [a|e]]; cbn in *; [assumption|].
  etransitivity; [exact Hm|apply Hh].
Qed.

Lemma steps_if {A} (b : bool) (m1 m2 : M A) :
  steps R m1 -> steps R m2 -> steps R (if b then m1 else m2).
Proof. now destruct b. Qed.

Lemma steps_ack : steps R ack.
Proof. intros w. reflexivity. Qed.

Lemma steps_call c : steps R (call c).
Proof. intros w. reflexivity. Qed.

Lemma steps_logger r : steps R (logger r).
Proof. intros w. reflexivity. Qed.

Lemma steps_now : steps R now.
Proof. intros w. reflexivity. Qed.

Lemma steps_getenv k d : steps R (getenv k d).
Proof. intros w. reflexivity. Qed.

Lemma steps_get_store : steps R get_store.
Proof. intros w. reflexivity. Qed.
End Steps.

Create HintDb steps.
#[export] Hint Resolve extends_preorder keeps_wf_preorder
  steps_ret steps_lift steps_bind steps_try steps_if
  steps_ack steps_call steps_logger steps_now steps_getenv steps_get_store : steps.

Section StoreGrowth.
Context {builtins : PyBuiltins}.

Lemma extends_append_task t : steps extends (append_task t).
Proof.
  intros w. repeat split; cbn; [|reflexivity]. now apply prefix_app_r.
Qed.

Lemma extends_append_approval a : steps extends (append_approval a).
Proof.
  intros w. repeat split; cbn; [reflexivity|]. now apply prefix_app_r.
Qed.

Lemma keeps_wf_append_task t : task_wf t -> steps keeps_wf (append_task t).
Proof.
  intros Ht w [Hts Has]. split; cbn; [|assumption].
  apply Forall_app_2; [assumption|]. now apply Forall_singleton.
Qed.

Lemma keeps_wf_append_approval a : approval_wf a -> steps keeps_wf (append_approval a).
Proof.
  intros Ha w [Hts Has]. split; cbn; [assumption|].
  apply Forall_app_2; [assumption|]. now apply Forall_singleton.
Qed.

Lemma lookup_set_is_Some k k' (v : pyval) (d : pydict) :
  is_Some (Dict.lookup k' d) -> is_Some (Dict.lookup k' (Dict.set k v d)).
Proof.
  intros H. destruct (String.eqb k k') eqn:E.
  - apply String.eqb_eq in E. subst k'. rewrite lookup_set_eq. eauto.
  - apply String.eqb_neq in E. now rewrite lookup_set_ne.
Qed.

Lemma keeps_wf_store_approval_item i k v : steps keeps_wf (store_approval_item i k v).
Proof.
  intros w [Hts Has]. unfold store_approval_item.
  destruct (approvals (store w) !! i) as [a|] eqn:Hi; [|now split].
  destruct a as [| | | |d]; cbn; try (now split).
  split; cbn; [assumption|]. apply Forall_insert; [assumption|].
  destruct (Forall_lookup_1 _ _ _ _ Has Hi) as [Hid Hst].
  split; cbn; now apply lookup_set_is_Some.
Qed.

Hint Resolve extends_append_task extends_append_approval keeps_wf_append_task
  keeps_wf_append_approval keeps_wf_store_approval_item : steps.

Lemma keeps_wf_resolve_loop verb request_id user_id items :
  forall i, steps keeps_wf (resolve_loop verb request_id user_id items i).
Proof.
  induction items as [|a items IH]; intros i; cbn; auto 10 with steps.
Qed.

Lemma task_wf_new_task id title description priority due_date created_by created_at :
  task_wf (new_task id title description priority due_date created_by created_at).
Proof. repeat split; eexists; reflexivity. Qed.

Lemma approval_wf_new_approval request_id user_id created_at :
  approval_wf (new_approval request_id user_id created_at).
Proof. repeat split; eexists; reflexivity. Qed.

Hint Resolve keeps_wf_resolve_loop task_wf_new_task approval_wf_new_approval : steps.

(** Unfold a handler and walk its binds with the step lemmas. *)
Ltac handler_steps h := unfold h; auto 40 with steps.

Lemma steps_send_workflow_example R `{!PreOrder R} channel :
  steps R (send_workflow_example channel).
Proof. handler_steps @send_workflow_example. Qed.

Lemma steps_send_task_example R `{!PreOrder R} channel :
  steps R (send_task_example channel).
Proof. handler_steps @send_task_example. Qed.

Lemma extends_send_approval_example channel user_id :
  steps extends (send_approval_example channel user_id).
Proof. handler_steps @send_approval_example. Qed.

Lemma keeps_wf_send_approval_example channel user_id :
  steps keeps_wf (send_approval_example channel user_id).
Proof. handler_steps @send_approval_example. Qed.

Hint Resolve steps_send_workflow_example steps_send_task_example
  extends_send_approval_example keeps_wf_send_approval_example : steps.

(** Every handler and job but the two that resolve approvals extends the
    store. *)
Lemma extends_dispatch inv :
  match inv with
  | Action_approve_request _ | Action_reject_request _ => True
  | _ => steps extends (dispatch inv)
  end.
Proof.
  destruct inv; cbn; try exact I.
  - handler_steps @handle_app_home_opened.
  - handler_steps @handle_message.
  - handler_steps @handle_automation_command.
  - handler_steps @handle_open_task_modal.
  - handler_steps @handle_task_modal_submit.
  - handler_steps @handle_view_workflow.
  - handler_steps @handle_request_approval.
  - handler_steps @send_daily_report.
  - handler_steps @check_pending_tasks.
Qed.

(** The stores the application can reach hold task and approval records
    only: the empty store does, and every handler and job keeps it so. *)
Lemma store_wf_initial : store_wf (mkStore [] [] []).
Proof. split; constructor. Qed.

Lemma store_wf_dispatch inv : steps keeps_wf (dispatch inv).
Proof.
  destruct inv; cbn.
  - handler_steps @handle_app_home_opened.
  - handler_steps @handle_message.
  - handler_steps @handle_automation_command.
  - handler_steps @handle_open_task_modal.
  - handler_steps @handle_task_modal_submit.
  - handler_steps @handle_view_workflow.
  - handler_steps @handle_request_approval.
  - handler_steps @handle_approve.
  - handler_steps @handle_reject.
  - handler_steps @send_daily_report.
  - handler_steps @check_pending_tasks.
Qed.

Lemma first_match_lt request_id items j :
  first_match request_id items = Ok (Some j) -> j < length items.
Proof.
  revert j. induction items as [|a items IH]; intros j; cbn; [discriminate|].
  destruct (getitem a "id") as [id|e]; cbn; [|discriminate].
  destruct (py_eq id request_id); [intros [= <-]; lia|].
  destruct (first_match request_id items) as [[j'|]|e]; cbn; try discriminate.
  intros [= <-]. specialize (IH j' eq_refl). lia.
Qed.

(** Destruct the lookups of a handler one after the other. *)
Ltac step_lookups :=
  repeat match goal with
         | |- context [match ?r with Ok _ => _ | Raise _ => _ end] =>
             destruct r; cbn
         end.

Lemma resolves_handle_approve body w :
  resolves "approved" (store w) (store (fst (handle_approve body w))).
Proof.
  unfold handle_approve, bind, lift, ack, get_store. cbn.
  destruct (action_value body) as [request_id|]; cbn; [|repeat split; now left].
  destruct (body_id body "user") as [user_id|]; cbn; [|repeat split; now left].
  destruct (body_id body "channel") as [channel_id|]; cbn; [|repeat split; now left].
  pose proof (resolve_loop_run "approved" request_id user_id (approvals (store w)) []
                (acked w) eq_refl) as Hloop.
  unfold acked in Hloop. cbn in Hloop. rewrite Hloop. clear Hloop.
  destruct (first_match request_id (approvals (store w))) as [[j|]|e] eqn:Hj; cbn;
    step_lookups; repeat split; try (now left);
    right; exists j, user_id, (isoformat (clock w (ticks w)));
    (split; [now apply first_match_lt in Hj|reflexivity]).
Qed.

Lemma resolves_handle_reject body w :
  resolves "rejected" (store w) (store (fst (handle_reject body w))).
Proof.
  unfold handle_reject, bind, lift, ack, get_store. cbn.
  destruct (action_value body) as [request_id|]; cbn; [|repeat split; now left].
  destruct (body_id body "user") as [user_id|]; cbn; [|repeat split; now left].
  destruct (body_id body "channel") as [channel_id|]; cbn; [|repeat split; now left].
  pose proof (resolve_loop_run "rejected" request_id user_id (approvals (store w)) []
                (acked w) eq_refl) as Hloop.
  unfold acked in Hloop. cbn in Hloop. rewrite Hloop. clear Hloop.
  destruct (first_match request_id (approvals (store w))) as [[j|]|e] eqn:Hj; cbn;
    step_lookups; repeat split; try (now left);
    right; exists j, user_id, (isoformat (clock w (ticks w)));
    (split; [now apply first_match_lt in Hj|reflexivity]).
Qed.

(** C9. Whatever the dispatch table runs, and whether it returns or
    raises, the tasks and the approvals of the store keep their entities
    in place and at most gain new ones at the end, and the workflows stay
    as they are.  The approve and reject actions alone rewrite an entity
    in place: at most one approval, by the status transition; they add
    nothing. *)
Theorem store_append_only (inv : Invocation) (w : World) :
  let s := store w in
  let s' := store (fst (dispatch inv w)) in
  match inv with
  | Action_approve_request _ => resolves "approved" s s'
  | Action_reject_request _ => resolves "rejected" s s'
  | _ => extends s s'
  end.
Proof.
  pose proof (extends_dispatch inv) as Hext.
  destruct inv; cbn zeta; unfold dispatch in *;
    match goal with
    | |- resolves _ _ (store (fst (handle_approve _ _))) => apply resolves_handle_approve
    | |- resolves _ _ (store (fst (handle_reject _ _))) => apply resolves_handle_reject
    | |- _ => exact (Hext w)
    end.
Qed.

End StoreGrowth.

(** ** The properties at the worked inputs *)

Lemma task_modal_submit_defaults_witness :
  tasks (store (fst (handle_task_modal_submit (builtins := ascii_builtins)
                       ship_report_body (world_on (mkStore [] [] []))))) =
    [PDict [("id", PStr "task_1700000000.25");
            ("title", PStr "Ship report");
            ("description", PStr "");
            ("priority", PStr "high");
            ("due_date", PStr "");
            ("created_by", PStr "U1");
            ("created_at", PStr "2023-11-14T22:13:20.250000");
            ("status", PStr "pending")]].
Proof.
  pose proof (task_modal_submit_defaults (builtins := ascii_builtins)
                ship_report_body ship_report_values (PStr "U1") (PStr "Ship report")
                (PStr "high") (world_on (mkStore [] [] []))
                eq_refl eq_refl eq_refl eq_refl) as H.
  cbn zeta in H. refine (proj1 (H _ _)).
  - eexists. split; [reflexivity|]. left. reflexivity.
  - eexists. split; [reflexivity|]. left. reflexivity.
Defined.

(** A description left blank arrives as a null value rather than as a
    missing key; it is then stored as it came. *)
Example blank_description_stored_as_null :
  let values :=
    PDict [("task_title", PDict [("title_input", PDict [("value", PStr "Ship report")])]);
           ("task_description", PDict [("description_input", PDict [("value", PNone)])]);
           ("task_priority",
            PDict [("priority_select",
                    PDict [("selected_option", PDict [("value", PStr "high")])])])] in
  let body :=
    PDict [("user", PDict [("id", PStr "U1")]);
           ("view", PDict [("state", PDict [("values", values)])])] in
  py_lookup "description" <$>
    tasks (store (fst (handle_task_modal_submit (builtins := ascii_builtins) body
                         (world_on (mkStore [] [] [])))))
    = [Some PNone].
Proof. reflexivity. Qed.

(** The modal is built without error. *)
Example create_task_modal_returns :
  py_keys <$> (match create_task_modal with Ok modal => Some modal | Raise _ => None end)
    = Some ["type"; "callback_id"; "title"; "submit"; "close"; "blocks"].
Proof. reflexivity. Qed.

Lemma click_payload (request_id user_id : string) :
  action_payload (click request_id user_id) (PStr request_id) (PStr user_id) (PStr "C1")
    (PStr "1700000001.000100").
Proof. split; reflexivity. Defined.

(** C2, counterexample: approve, then reject, on one pending approval.  The
    record is written by both handlers, the second time while it is
    approved, not pending. *)
Lemma approve_then_reject_mutates_twice :
  let w0 := world_on (mkStore [] [] [budget_approval]) in
  let body := click "req_1700000000.25" "U2" in
  let w1 := fst (handle_approve (builtins := ascii_builtins) body w0) in
  let w2 := fst (handle_reject (builtins := ascii_builtins) body w1) in
  let status w := py_lookup "status" <$> approvals (store w) !! 0 in
  status w0 = Some (Some (PStr "pending")) /\
  status w1 = Some (Some (PStr "approved")) /\
  status w2 = Some (Some (PStr "rejected")) /\
  approvals (store w0) !! 0 <> approvals (store w1) !! 0 /\
  approvals (store w1) !! 0 <> approvals (store w2) !! 0 /\
  ~ ((approvals (store w0) !! 0 <> approvals (store w1) !! 0 /\
      approvals (store w1) !! 0 = approvals (store w2) !! 0) \/
     (approvals (store w0) !! 0 = approvals (store w1) !! 0 /\
      approvals (store w1) !! 0 <> approvals (store w2) !! 0)).
Proof.
  vm_compute. repeat split; try discriminate.
  intros [[_ H] | [H _]]; discriminate H.
Qed.

Lemma budget_approval_has_id : has_id (PStr "req_1700000000.25") budget_approval.
Proof. eexists. split; reflexivity. Defined.

Lemma approve_reject_last_wins_witness :
  let w0 := world_on (mkStore [] [] [budget_approval]) in
  let approve := handle_approve (builtins := ascii_builtins) (click "req_1700000000.25" "U2") in
  let reject := handle_reject (builtins := ascii_builtins) (click "req_1700000000.25" "U3") in
  exists a1 a2,
    approvals (store (fst (approve w0))) = [a1] /\
    approvals (store (fst (reject (fst (approve w0))))) = [a2] /\
    py_lookup "status" a1 = Some (PStr "approved") /\
    py_lookup "status" a2 = Some (PStr "rejected") /\
    List.NoDup (py_keys a2).
Proof.
  intros w0 approve reject.
  refine (proj2 (proj2 (proj1
    (approve_reject_last_wins (builtins := ascii_builtins)
       (click "req_1700000000.25" "U2") (click "req_1700000000.25" "U3")
       (PStr "req_1700000000.25") _ _ _ _ _ _ w0 [] _ []
       (click_payload _ _) (click_payload _ _) eq_refl (Forall_nil_2 _)
       budget_approval_has_id _)))).
  apply NoDup_ListNoDup. apply (bool_decide_unpack _). vm_compute. reflexivity.
Defined.

Lemma unmatched_request_is_noop_witness :
  let w0 := world_on (mkStore [] [] [budget_approval]) in
  store (fst (handle_approve (builtins := ascii_builtins) (click "req_0" "U2") w0)) = store w0.
Proof.
  intros w0.
  refine (proj1 (proj1 (unmatched_request_is_noop (builtins := ascii_builtins)
                          (click "req_0" "U2") _ _ _ _ w0 (click_payload _ _)) _)).
  repeat constructor. eexists. split; reflexivity.
Defined.

Lemma resolution_frame_witness :
  let w0 := world_on (mkStore [] [] [budget_approval]) in
  let s' := store (fst (handle_approve (builtins := ascii_builtins)
                          (click "req_1700000000.25" "U2") w0)) in
  tasks s' = [] /\ workflows s' = [].
Proof.
  intros w0 s'.
  pose proof (proj1 (resolution_frame (builtins := ascii_builtins)
                       (click "req_1700000000.25" "U2") _ _ _ _ w0 [] budget_approval []
                       (click_payload _ _) eq_refl (Forall_nil_2 _)
                       budget_approval_has_id)) as (Ht & Hw & _).
  split; assumption.
Defined.

Lemma eight_tasks_wf : Forall task_wf eight_tasks.
Proof. repeat constructor; eexists; reflexivity. Defined.

Lemma pending_tasks_reminder_witness :
  let w0 := world_on (mkStore eight_tasks [] []) in
  store (fst (check_pending_tasks (builtins := ascii_builtins) w0)) = store w0 /\
  snd (check_pending_tasks (builtins := ascii_builtins) w0) = Ok tt.
Proof.
  intros w0.
  pose proof (pending_tasks_reminder (builtins := ascii_builtins) w0 eight_tasks_wf)
    as (Hs & Hr & _).
  split; assumption.
Defined.

(** With seven pending tasks the reminder counts seven and lists five. *)
Example reminder_of_seven :
  outbox (fst (check_pending_tasks (builtins := ascii_builtins)
                 (world_on (mkStore eight_tasks [] [])))) =
    [chat_postMessage (PStr "#general")
       (Some [create_header_block "⏰ Pending Tasks Reminder";
              create_section_block
                ("You have 7 pending task(s):" ++ nl ++ nl ++
                 "• A (Priority: high)" ++ nl ++ "• B (Priority: low)" ++ nl ++
                 "• D (Priority: medium)" ++ nl ++ "• E (Priority: high)" ++ nl ++
                 "• F (Priority: low)") None;
              create_actions_block
                [create_button_block "View All Tasks" "view_tasks" None None None]])
       "Pending tasks reminder"].
Proof. vm_compute. reflexivity. Qed.

Lemma message_dispatch_witness :
  let w0 := world_on (mkStore [] [] []) in
  let event := PDict [("text", PStr "Which Workflow?"); ("channel", PStr "C1")] in
  let c := chat_postMessage (PStr "C1") None greeting in
  handle_message (builtins := ascii_builtins) event w0 = (called c w0, call_outcome w0 c).
Proof.
  intros w0 event c.
  refine (proj1 (proj2 (message_dispatch (builtins := ascii_builtins)
                          [("text", PStr "Which Workflow?"); ("channel", PStr "C1")]
                          "Which Workflow?" (PStr "C1") w0)
                   eq_refl eq_refl eq_refl) _).
  right. reflexivity.
Defined.

(** * Further properties *)

(** ** What a run does to the acknowledgements and to the outbox *)

#[export] Instance same_acks_preorder : PreOrder same_acks.
Proof. split; unfold same_acks; [intros w|intros w1 w2 w3]; congruence. Qed.

#[export] Instance same_outbox_preorder : PreOrder same_outbox.
Proof. split; unfold same_outbox; [intros w|intros w1 w2 w3]; congruence. Qed.

Section WorldSteps.
Context (R : relation World) `{!PreOrder R}.

Lemma wsteps_ret {A} (a : A) : wsteps R (ret a).
Proof. intros w. reflexivity. Qed.

Lemma wsteps_lift {A} (r : result A) : wsteps R (lift r).
Proof. intros w. reflexivity. Qed.

Lemma wsteps_getenv k d : wsteps R (getenv k d).
Proof. intros w. reflexivity. Qed.

Lemma wsteps_get_store : wsteps R get_store.
Proof. intros w. reflexivity. Qed.

Lemma wsteps_bind {A B} (m : M A) (k : A -> M B) :
  wsteps R m -> (forall a, wsteps R (k a)) -> wsteps R (bind m k).
Proof.
  intros Hm Hk w. unfold bind. specialize (Hm w).
  destruct (m w) as [w' [a|e]]; cbn in *; [|assumption].
  etransitivity; [exact Hm|apply Hk].
Qed.

Lemma wsteps_try {A} (m : M A) (h : exn -> M A) :
  wsteps R m -> (forall e, wsteps R (h e)) -> wsteps R (try_except m h).
Proof.
  intros Hm Hh w. unfold try_except. specialize (Hm w).
  destruct (m w) as [w' [a|e]]; cbn in *; [assumption|].
  etransitivity; [exact Hm|apply Hh].
Qed.

Lemma wsteps_if {A} (b : bool) (m1 m2 : M A) :
  wsteps R m1 -> wsteps R m2 -> wsteps R (if b then m1 else m2).
Proof. now destruct b. Qed.
End WorldSteps.

Lemma same_acks_call c : wsteps same_acks (call c).
Proof. intros w. reflexivity. Qed.

Lemma same_acks_logger r : wsteps same_acks (logger r).
Proof. intros w. reflexivity. Qed.

Lemma same_acks_now : wsteps same_acks now.
Proof. intros w. reflexivity. Qed.

Lemma same_acks_set_store f : wsteps same_acks (set_store f).
Proof. intros w. reflexivity. Qed.

Lemma same_outbox_ack : wsteps same_outbox ack.
Proof. intros w. reflexivity. Qed.

Lemma same_outbox_logger r : wsteps same_outbox (logger r).
Proof. intros w. reflexivity. Qed.

Lemma same_outbox_now : wsteps same_outbox now.
Proof. intros w. reflexivity. Qed.

Lemma same_outbox_set_store f : wsteps same_outbox (set_store f).
Proof. intros w. reflexivity. Qed.

Create HintDb wsteps.
#[export] Hint Resolve same_acks_preorder same_outbox_preorder
  wsteps_ret wsteps_lift wsteps_getenv wsteps_get_store wsteps_bind wsteps_try wsteps_if
  same_acks_call same_acks_logger same_acks_now same_acks_set_store
  same_outbox_ack same_outbox_logger same_outbox_now same_outbox_set_store : wsteps.

Lemma sends_quiet n {A} (m : M A) : wsteps same_outbox m -> sends_at_most n m.
Proof.
  intros Hm w. exists []. rewrite app_nil_r. split; [apply Hm|cbn; lia].
Qed.

Lemma sends_call n c : sends_at_most (S n) (call c).
Proof. intros w. exists [c]. split; [reflexivity|cbn; lia]. Qed.

Lemma sends_bind_l n {A B} (m : M A) (k : A -> M B) :
  wsteps same_outbox m -> (forall a, sends_at_most n (k a)) ->
  sends_at_most n (bind m k).
Proof.
  intros Hm Hk w. unfold bind. specialize (Hm w). unfold same_outbox in Hm.
  destruct (m w) as [w' [a|e]]; cbn in *.
  - destruct (Hk a w') as (cs & Hcs & Hn). exists cs. now rewrite Hcs, Hm.
  - exists []. rewrite app_nil_r. split; [assumption|cbn; lia].
Qed.

Lemma sends_bind_r n {A B} (m : M A) (k : A -> M B) :
  sends_at_most n m -> (forall a, wsteps same_outbox (k a)) ->
  sends_at_most n (bind m k).
Proof.
  intros Hm Hk w. unfold bind. destruct (Hm w) as (cs & Hcs & Hn).
  destruct (m w) as [w' [a|e]]; cbn in *; exists cs; [|now split].
  split; [|assumption]. rewrite <- Hcs. apply Hk.
Qed.

Lemma sends_try n {A} (m : M A) (h : exn -> M A) :
  sends_at_most n m -> (forall e, wsteps same_outbox (h e)) ->
  sends_at_most n (try_except m h).
Proof.
  intros Hm Hh w. unfold try_except. destruct (Hm w) as (cs & Hcs & Hn).
  destruct (m w) as [w' [a|e]]; cbn in *; exists cs; [now split|].
  split; [|assumption]. rewrite <- Hcs. apply Hh.
Qed.

Lemma sends_if n {A} (b : bool) (m1 m2 : M A) :
  sends_at_most n m1 -> sends_at_most n m2 -> sends_at_most n (if b then m1 else m2).
Proof. now destruct b. Qed.

Section Effects.
Context {builtins : PyBuiltins}.

Lemma same_acks_store_approval_item i k v : wsteps same_acks (store_approval_item i k v).
Proof.
  intros w. unfold store_approval_item, same_acks.
  destruct (approvals (store w) !! i) as [[| | | |d]|]; reflexivity.
Qed.

Lemma same_outbox_store_approval_item i k v :
  wsteps same_outbox (store_approval_item i k v).
Proof.
  intros w. unfold store_approval_item, same_outbox.
  destruct (approvals (store w) !! i) as [[| | | |d]|]; reflexivity.
Qed.

Hint Resolve same_acks_store_approval_item same_outbox_store_approval_item : wsteps.

Lemma wsteps_resolve_loop R `{!PreOrder R} verb request_id user_id items :
  (forall i k v, wsteps R (store_approval_item i k v)) -> wsteps R now ->
  forall i, wsteps R (resolve_loop verb request_id user_id items i).
Proof.
  intros Hitem Hnow. induction items as [|a items IH]; intros i; cbn; auto 10 with wsteps.
Qed.

Lemma same_acks_resolve_loop verb request_id user_id items i :
  wsteps same_acks (resolve_loop verb request_id user_id items i).
Proof. apply wsteps_resolve_loop; auto with wsteps. Qed.

Lemma same_outbox_resolve_loop verb request_id user_id items i :
  wsteps same_outbox (resolve_loop verb request_id user_id items i).
Proof. apply wsteps_resolve_loop; auto with wsteps. Qed.

Hint Resolve same_acks_resolve_loop same_outbox_resolve_loop : wsteps.

Ltac quiet h := unfold h, append_task, append_approval; auto 40 with wsteps.

Lemma same_acks_send_workflow_example channel :
  wsteps same_acks (send_workflow_example channel).
Proof. quiet @send_workflow_example. Qed.

Lemma same_acks_send_task_example channel : wsteps same_acks (send_task_example channel).
Proof. quiet @send_task_example. Qed.

Lemma same_acks_send_approval_example channel user_id :
  wsteps same_acks (send_approval_example channel user_id).
Proof. quiet @send_approval_example. Qed.

Hint Resolve same_acks_send_workflow_example same_acks_send_task_example
  same_acks_send_approval_example : wsteps.

Lemma acks_after_ack {A} (k : unit -> M A) w :
  (forall u, wsteps same_acks (k u)) -> acks (fst (bind ack k w)) = S (acks w).
Proof. intros Hk. unfold bind, ack. cbn. apply (Hk tt). Qed.

(** X1. A listener that is passed [ack] acknowledges exactly once, whatever
    the body it is given and whether it returns or raises; the two event
    listeners and the two jobs never acknowledge. *)
Theorem acknowledged_once (inv : Invocation) (w : World) :
  acks (fst (dispatch inv w)) = (if takes_ack inv then S (acks w) else acks w).
Proof.
  destruct inv; cbn [takes_ack dispatch];
    first [ apply acks_after_ack; intros []
          | match goal with |- acks (fst (?h w)) = acks w => change (same_acks w (fst (h w))) end;
            revert w;
            match goal with |- forall w, same_acks w (fst (?h w)) => change (wsteps same_acks h) end ].
  - quiet @handle_app_home_opened.
  - quiet @handle_message.
  - auto 40 with wsteps.
  - auto 40 with wsteps.
  - unfold append_task. auto 40 with wsteps.
  - auto 40 with wsteps.
  - auto 40 with wsteps.
  - auto 40 with wsteps.
  - auto 40 with wsteps.
  - quiet @send_daily_report.
  - quiet @check_pending_tasks.
Qed.

Hint Resolve sends_call sends_bind_l sends_if sends_try : wsteps.
Hint Resolve sends_bind_r sends_quiet | 5 : wsteps.

Lemma sends_send_workflow_example channel :
  sends_at_most 1 (send_workflow_example channel).
Proof. unfold send_workflow_example. auto 10 with wsteps. Qed.

Lemma sends_send_task_example channel : sends_at_most 1 (send_task_example channel).
Proof. unfold send_task_example. auto 10 with wsteps. Qed.

Lemma sends_send_approval_example channel user_id :
  sends_at_most 1 (send_approval_example channel user_id).
Proof. unfold send_approval_example, append_approval. auto 10 with wsteps. Qed.

Hint Resolve sends_send_workflow_example sends_send_task_example
  sends_send_approval_example : wsteps.

(** X2. No run of a listener or job makes more than one call on the client,
    and none withdraws a call made before: the outbox keeps what it held and
    gains at most one call, whatever the input and whether the run returns
    or raises. *)
Theorem at_most_one_call (inv : Invocation) (w : World) :
  exists cs,
    outbox (fst (dispatch inv w)) = (outbox w ++ cs)%list /\ length cs <= 1.
Proof.
  revert w. change (sends_at_most 1 (dispatch inv)).
  destruct inv; cbn [dispatch].
  - unfold handle_app_home_opened. auto 20 with wsteps.
  - unfold handle_message. auto 20 with wsteps.
  - unfold handle_automation_command. auto 20 with wsteps.
  - unfold handle_open_task_modal. auto 20 with wsteps.
  - unfold handle_task_modal_submit, append_task. auto 40 with wsteps.
  - unfold handle_view_workflow. auto 20 with wsteps.
  - unfold handle_request_approval. auto 20 with wsteps.
  - unfold handle_approve. auto 40 with wsteps.
  - unfold handle_reject. auto 40 with wsteps.
  - unfold send_daily_report. auto 40 with wsteps.
  - unfold check_pending_tasks. auto 40 with wsteps.
Qed.

End Effects.

(** ** The listeners and jobs that catch what they raise *)

Lemma pending_of_status (items : list pyval) :
  Forall has_status items -> pending_of items = Ok (List.filter is_pending items).
Proof.
  induction 1 as [|x items [st Hst] _ IH]; cbn; [reflexivity|].
  rewrite (getitem_lookup _ _ _ Hst). cbn. rewrite IH. cbn.
  unfold is_pending. now rewrite Hst.
Qed.

Section Contained.
Context {builtins : PyBuiltins}.

(** X3. Opening the home tab never raises and never touches the store or
    the acknowledgements.  An event that names its user has the dashboard
    published to that user, and one log record written: of the success, or
    of the refusal of the call.  Any other event publishes nothing and has
    the failed lookup logged. *)
Theorem home_opened_contained (event : pyval) (w : World) :
  let w' := fst (handle_app_home_opened event w) in
  snd (handle_app_home_opened event w) = Ok tt /\
  store w' = store w /\
  match getitem event "user" with
  | Ok user_id =>
      let c := views_publish user_id create_dashboard_home_tab in
      outbox w' = (outbox w ++ [c])%list /\
      log w' =
        (log w ++ [if delivers w c
                   then LogInfo ("Published home tab for user " ++ py_str user_id)
                   else LogError "Error publishing home tab: " SlackApiError])%list
  | Raise e =>
      outbox w' = outbox w /\
      log w' = (log w ++ [LogError "Error publishing home tab: " e])%list
  end.
Proof.
  unfold handle_app_home_opened, try_except, bind, lift, call, logger, call_outcome.
  destruct (getitem event "user") as [user_id|e]; cbn; [|repeat split].
  destruct (delivers w _); cbn; repeat split.
Qed.

(** X4. The daily report never raises and never touches the store, whatever
    the store holds, and it writes exactly one log record.  When every
    approval has a status to read, it sends one report, with the number of
    tasks, of approvals whose status is "pending" and of workflows; when one
    has none, nothing is sent and the failed lookup is logged. *)
Theorem daily_report_contained (w : World) :
  let w' := fst (send_daily_report w) in
  snd (send_daily_report w) = Ok tt /\
  store w' = store w /\
  length (log w') = S (length (log w)) /\
  (Forall has_status (approvals (store w)) ->
   outbox w' = (outbox w ++ [daily_report w])%list /\
   log w' =
     (log w ++ [if delivers w (daily_report w) then LogInfo "Sent daily report"
                else LogError "Error sending daily report: " SlackApiError])%list) /\
  (forall e, pending_of (approvals (store w)) = Raise e ->
   outbox w' = outbox w /\
   log w' = (log w ++ [LogError "Error sending daily report: " e])%list).
Proof.
  unfold send_daily_report, try_except, bind, lift, getenv, now, get_store, call, logger,
    call_outcome.
  cbn. repeat apply conj.
  - destruct (pending_of _); cbn; [destruct (delivers w _)|]; reflexivity.
  - destruct (pending_of _); cbn; [destruct (delivers w _)|]; reflexivity.
  - destruct (pending_of _); cbn; [destruct (delivers w _)|]; cbn;
      rewrite length_app; cbn; lia.
  - intros Hst. rewrite (pending_of_status _ Hst). cbn. unfold daily_report.
    destruct (delivers w _); cbn; split; reflexivity.
  - intros e ->. cbn. split; reflexivity.
Qed.

End Contained.

(** ** Requests and their resolution *)

Section Requests.
Context {builtins : PyBuiltins}.

Lemma handle_request_approval_run body user_id channel_id w :
  getpath body ["user"; "id"] = Ok user_id ->
  getpath body ["channel"; "id"] = Ok channel_id ->
  let request_id := "req_" ++ timestamp (clock w (ticks w)) in
  let approval := new_approval request_id user_id (isoformat (clock w (S (ticks w)))) in
  let c :=
    chat_postMessage channel_id
      (Some (create_approval_message ("<@" ++ py_str user_id ++ ">") "Budget Approval"
               "Requesting approval for Q4 marketing budget" request_id))
      "Approval request" in
  handle_request_approval body w =
    (mkWorld
       (mkStore (tasks (store w)) (workflows (store w)) (approvals (store w) ++ [approval]))
       (S (acks w)) (outbox w ++ [c]) (log w) (clock w) (S (S (ticks w)))
       (delivers w) (environ w),
     call_outcome w c).
Proof.
  intros Hu Hc. path_eqs.
  unfold handle_request_approval, send_approval_example, body_id, bind, lift, ack, now,
    append_approval, set_store, call.
  cbn. run_eqs. reflexivity.
Qed.

Lemma new_approval_has_id request_id user_id created_at :
  has_id (PStr request_id) (new_approval request_id user_id created_at).
Proof. exists (PStr request_id). split; [reflexivity|]. cbn. apply String.eqb_refl. Qed.

(** X5. A request for approval and the click that answers it meet: the card
    sent for the request carries, on each of its three buttons, the id
    under which the approval was stored, and an approve (or reject) action
    carrying that id resolves the approval just stored and no other,
    provided no older approval has the same id. *)
Theorem request_then_resolve
    body user_id channel_id click approver channel_id' ts (w : World) :
  getpath body ["user"; "id"] = Ok user_id ->
  getpath body ["channel"; "id"] = Ok channel_id ->
  let request_id := "req_" ++ timestamp (clock w (ticks w)) in
  Forall (other_id (PStr request_id)) (approvals (store w)) ->
  action_payload click (PStr request_id) approver channel_id' ts ->
  let stored := new_approval request_id user_id (isoformat (clock w (S (ticks w)))) in
  let at_time := isoformat (clock w (S (S (ticks w)))) in
  let w1 := fst (handle_request_approval body w) in
  (exists blocks,
     last (outbox w1) = Some (chat_postMessage channel_id (Some blocks) "Approval request") /\
     py_lookup "value" <$> action_elements blocks =
       [Some (PStr request_id); Some (PStr request_id); Some (PStr request_id)] /\
     py_lookup "action_id" <$> action_elements blocks =
       [Some (PStr "approve_request"); Some (PStr "reject_request");
        Some (PStr "view_details")]) /\
  approvals (store w1) = (approvals (store w) ++ [stored])%list /\
  approvals (store (fst (handle_approve click w1))) =
    (approvals (store w) ++ [resolve_record "approved" approver at_time stored])%list /\
  approvals (store (fst (handle_reject click w1))) =
    (approvals (store w) ++ [resolve_record "rejected" approver at_time stored])%list.
Proof.
  intros Hu Hc request_id Hold Hclick stored at_time w1.
  subst w1. rewrite (handle_request_approval_run _ _ _ _ Hu Hc). cbn [fst].
  fold request_id stored. repeat apply conj.
  - eexists. split; [cbn; apply last_snoc|]. split; reflexivity.
  - reflexivity.
  - match goal with |- context [handle_approve click ?w1] =>
      destruct (handle_approve_hit click _ _ _ _ w1 (approvals (store w)) stored []
                  Hclick eq_refl Hold (new_approval_has_id _ _ _)) as [-> _]
    end.
    reflexivity.
  - match goal with |- context [handle_reject click ?w1] =>
      destruct (handle_reject_hit click _ _ _ _ w1 (approvals (store w)) stored []
                  Hclick eq_refl Hold (new_approval_has_id _ _ _)) as [-> _]
    end.
    reflexivity.
Qed.

End Requests.

Section RequestEdges.
Context {builtins : PyBuiltins}.

(** X6. Ids come from the clock alone: two requests made at readings with
    the same timestamp are stored under one id, both of their cards carry
    it, and an approve action for it resolves the older request while the
    newer one stays pending. *)
Theorem same_timestamp_same_id
    body1 user1 channel1 body2 user2 channel2 click approver channel_id' ts (w : World) :
  getpath body1 ["user"; "id"] = Ok user1 ->
  getpath body1 ["channel"; "id"] = Ok channel1 ->
  getpath body2 ["user"; "id"] = Ok user2 ->
  getpath body2 ["channel"; "id"] = Ok channel2 ->
  timestamp (clock w (S (S (ticks w)))) = timestamp (clock w (ticks w)) ->
  let request_id := "req_" ++ timestamp (clock w (ticks w)) in
  Forall (other_id (PStr request_id)) (approvals (store w)) ->
  action_payload click (PStr request_id) approver channel_id' ts ->
  let older := new_approval request_id user1 (isoformat (clock w (S (ticks w)))) in
  let newer := new_approval request_id user2 (isoformat (clock w (S (S (S (ticks w)))))) in
  let w2 := fst (handle_request_approval body2 (fst (handle_request_approval body1 w))) in
  approvals (store w2) = (approvals (store w) ++ [older; newer])%list /\
  exists resolved,
    approvals (store (fst (handle_approve click w2))) =
      (approvals (store w) ++ [resolved; newer])%list /\
    py_lookup "status" resolved = Some (PStr "approved") /\
    py_lookup "requester" resolved = Some user1 /\
    py_lookup "status" newer = Some (PStr "pending").
Proof.
  intros Hu1 Hc1 Hu2 Hc2 Hts request_id Hold Hclick older newer w2.
  subst w2. rewrite (handle_request_approval_run _ _ _ _ Hu1 Hc1). cbn [fst].
  rewrite (handle_request_approval_run _ _ _ _ Hu2 Hc2). cbn [fst].
  cbn [store approvals clock ticks]. rewrite Hts. fold request_id older newer.
  rewrite <- app_assoc. cbn [app]. split; [reflexivity|].
  eexists. split.
  - match goal with |- context [handle_approve click ?w2] =>
      destruct (handle_approve_hit click _ _ _ _ w2 (approvals (store w)) older [newer]
                  Hclick eq_refl Hold (new_approval_has_id _ _ _)) as [-> _]
    end.
    reflexivity.
  - repeat split.
Qed.

(** X7. The approval is resolved before the card is updated: an action
    that names a stored approval, its user and its channel but lacks the
    message timestamp leaves the approval approved (or rejected) and then
    raises the failed lookup, without a call on the client. *)
Theorem resolved_before_update
    body request_id user_id channel_id e (w : World) pre a post :
  action_value body = Ok request_id ->
  getpath body ["user"; "id"] = Ok user_id ->
  getpath body ["channel"; "id"] = Ok channel_id ->
  getpath body ["message"; "ts"] = Raise e ->
  approvals (store w) = (pre ++ a :: post)%list ->
  Forall (other_id request_id) pre ->
  has_id request_id a ->
  let outcome (verb : string) (r : World * result unit) :=
    approvals (store (fst r)) =
      (pre ++ resolve_record verb user_id (isoformat (clock w (ticks w))) a :: post)%list /\
    outbox (fst r) = outbox w /\
    acks (fst r) = S (acks w) /\
    snd r = Raise e in
  outcome "approved" (handle_approve body w) /\
  outcome "rejected" (handle_reject body w).
Proof.
  intros Hv Hu Hc Hts Hw Hpre Ha outcome. subst outcome. path_eqs.
  assert (first_match request_id (approvals (store w)) = Ok (Some (length pre))) as Hfm
    by (rewrite Hw; now apply first_match_middle).
  cbn in Hts.
  split.
  - unfold handle_approve, bind, lift, ack, get_store, body_id. cbn. run_eqs.
    pose proof (resolve_loop_run "approved" request_id user_id (approvals (store w)) []
                  (acked w) eq_refl) as Hloop.
    unfold acked in Hloop. cbn in Hloop. rewrite Hloop, Hfm. clear Hloop. cbn.
    rewrite Hw, alter_middle.
    destruct (getitem body "message") as [m|e']; cbn in *.
    + destruct (getitem m "ts") as [tsv|e']; cbn in *; [discriminate Hts|].
      injection Hts as ->. repeat split.
    + injection Hts as ->. repeat split.
  - unfold handle_reject, bind, lift, ack, get_store, body_id. cbn. run_eqs.
    pose proof (resolve_loop_run "rejected" request_id user_id (approvals (store w)) []
                  (acked w) eq_refl) as Hloop.
    unfold acked in Hloop. cbn in Hloop. rewrite Hloop, Hfm. clear Hloop. cbn.
    rewrite Hw, alter_middle.
    destruct (getitem body "message") as [m|e']; cbn in *.
    + destruct (getitem m "ts") as [tsv|e']; cbn in *; [discriminate Hts|].
      injection Hts as ->. repeat split.
    + injection Hts as ->. repeat split.
Qed.

End RequestEdges.

(** ** Tasks *)

Lemma getitem_raises v k e : getitem v k = Raise e -> e <> SlackApiError.
Proof.
  destruct v as [| | | |d]; cbn; try (intros [= <-]; discriminate).
  destruct (Dict.lookup k d); [discriminate|]. intros [= <-]. discriminate.
Qed.

Lemma py_get_raises v k d e : py_get v k d = Raise e -> e <> SlackApiError.
Proof.
  destruct v as [| | | |x]; cbn; try (intros [= <-]; discriminate).
  destruct (Dict.lookup k x); discriminate.
Qed.

Section Tasks.
Context {builtins : PyBuiltins}.

Lemma get_optional_raises values block action key e :
  get_optional values block action key = Raise e -> e <> SlackApiError.
Proof.
  unfold get_optional.
  destruct (py_get values block (PDict [])) as [b|e1] eqn:E1; cbn;
    [|intros [= <-]; eapply py_get_raises; eassumption].
  destruct (py_get b action (PDict [])) as [a|e2] eqn:E2; cbn;
    [|intros [= <-]; eapply py_get_raises; eassumption].
  apply py_get_raises.
Qed.

Lemma task_ok_new_task id title description priority due_date created_by created_at :
  task_ok (new_task id title description priority due_date created_by created_at).
Proof. repeat split; eexists; reflexivity. Qed.

(** X8. A submission of the task modal is acknowledged, and it is stored
    and confirmed together or not at all: either a lookup in the body
    raises, and then no task is stored and nothing is sent, or exactly one
    pending task is appended and one confirmation sent, whose outcome is the
    handler's.  Approvals and workflows are not touched. *)
Theorem task_submit_all_or_nothing (body : pyval) (w : World) :
  let r := handle_task_modal_submit body w in
  acks (fst r) = S (acks w) /\
  workflows (store (fst r)) = workflows (store w) /\
  approvals (store (fst r)) = approvals (store w) /\
  ((exists e,
      snd r = Raise e /\ e <> SlackApiError /\
      tasks (store (fst r)) = tasks (store w) /\ outbox (fst r) = outbox w) \/
   (exists task c,
      task_ok task /\
      tasks (store (fst r)) = (tasks (store w) ++ [task])%list /\
      outbox (fst r) = (outbox w ++ [c])%list /\
      snd r = call_outcome w c)).
Proof.
  unfold handle_task_modal_submit, bind, lift, ack, now, append_task, set_store, call.
  cbn.
  repeat match goal with
         | |- context [match getitem ?v ?k with Ok _ => _ | Raise _ => _ end] =>
             let E := fresh "E" in
             destruct (getitem v k) eqn:E; cbn;
             [|repeat split; left; eexists; split; [reflexivity|];
               split; [eapply getitem_raises; eassumption|split; reflexivity]]
         | |- context [match get_optional ?v ?b ?a ?k with Ok _ => _ | Raise _ => _ end] =>
             let E := fresh "E" in
             destruct (get_optional v b a k) eqn:E; cbn;
             [|repeat split; left; eexists; split; [reflexivity|];
               split; [eapply get_optional_raises; eassumption|split; reflexivity]]
         end.
  repeat split. right. eexists _, _.
  split; [apply task_ok_new_task|]. repeat split.
Qed.

End Tasks.

(** ** The stores the application reaches *)

#[export] Instance keeps_preorder (I : Store -> Prop) : PreOrder (keeps I).
Proof. split; unfold keeps; [intros s|intros s1 s2 s3]; auto. Qed.

Lemma resolve_record_ok verb user_id at_time a :
  verb = "approved" \/ verb = "rejected" ->
  approval_ok a -> approval_ok (resolve_record verb user_id at_time a).
Proof.
  intros Hverb [[id Hid] Hst]. destruct a as [| | | |d]; try discriminate Hid. split.
  - exists id. rewrite resolve_record_frame; [assumption|discriminate| |];
      destruct Hverb as [-> | ->]; discriminate.
  - destruct (resolve_record_status verb user_id at_time d Hverb) as [-> _].
    destruct Hverb as [-> | ->]; auto.
Qed.

Lemma resolves_store_ok verb s s' :
  verb = "approved" \/ verb = "rejected" ->
  resolves verb s s' -> store_ok s -> store_ok s'.
Proof.
  intros Hverb (Ht & Hw & Ha) (Hts & Hws & Has). repeat split.
  - now rewrite Ht.
  - now rewrite Hw.
  - destruct Ha as [-> | (i & user_id & at_time & _ & ->)]; [assumption|].
    apply Forall_alter; [assumption|]. intros a _. now apply resolve_record_ok.
Qed.

Section Reachable.
Context {builtins : PyBuiltins}.

Lemma store_ok_append_task t : task_ok t -> steps (keeps store_ok) (append_task t).
Proof.
  intros Ht w (Hts & Hws & Has). repeat split; cbn; [|assumption..].
  apply Forall_app_2; [assumption|]. now apply Forall_singleton.
Qed.

Lemma store_ok_append_approval a :
  approval_ok a -> steps (keeps store_ok) (append_approval a).
Proof.
  intros Ha w (Hts & Hws & Has). repeat split; cbn; [assumption..|].
  apply Forall_app_2; [assumption|]. now apply Forall_singleton.
Qed.

Lemma approval_ok_new_approval request_id user_id created_at :
  approval_ok (new_approval request_id user_id created_at).
Proof. split; [eexists; reflexivity|]. now left. Qed.

Hint Resolve keeps_preorder store_ok_append_task store_ok_append_approval
  approval_ok_new_approval task_ok_new_task : steps.

Lemma store_ok_send_approval_example channel user_id :
  steps (keeps store_ok) (send_approval_example channel user_id).
Proof. unfold send_approval_example. auto 20 with steps. Qed.

Hint Resolve store_ok_send_approval_example steps_send_workflow_example
  steps_send_task_example : steps.

Ltac ok_steps h f :=
  change (steps (keeps store_ok) h); unfold f; auto 40 with steps.

Lemma store_ok_dispatch inv w :
  store_ok (store w) -> store_ok (store (fst (dispatch inv w))).
Proof.
  destruct inv; cbn [dispatch]; revert w.
  - ok_steps (handle_app_home_opened event) @handle_app_home_opened.
  - ok_steps (handle_message event) @handle_message.
  - ok_steps (handle_automation_command body) @handle_automation_command.
  - ok_steps (handle_open_task_modal body) @handle_open_task_modal.
  - ok_steps (handle_task_modal_submit body) @handle_task_modal_submit.
  - ok_steps (handle_view_workflow body) @handle_view_workflow.
  - ok_steps (handle_request_approval body) @handle_request_approval.
  - intros w. apply (resolves_store_ok "approved"); [now left|].
    apply resolves_handle_approve.
  - intros w. apply (resolves_store_ok "rejected"); [now right|].
    apply resolves_handle_reject.
  - ok_steps send_daily_report @send_daily_report.
  - ok_steps check_pending_tasks @check_pending_tasks.
Qed.

(** X9. However the application got where it is, its store holds only
    what the listeners put there: every task is a task record and still
    pending, no workflow was ever stored, and every approval has an id and
    the status pending, approved or rejected. *)
Theorem reachable_store_ok (w : World) : reachable w -> store_ok (store w).
Proof.
  induction 1 as [w Hw|inv w _ IH].
  - rewrite Hw. repeat split; constructor.
  - now apply store_ok_dispatch.
Qed.

End Reachable.

(** ** From a submission to the reminder *)

Lemma task_ok_pending t : task_ok t -> is_pending t = true.
Proof. intros [_ Hst]. unfold is_pending. now rewrite Hst. Qed.

Section SubmitThenRemind.
Context {builtins : PyBuiltins}.

Lemma check_pending_tasks_outbox w :
  Forall task_wf (tasks (store w)) ->
  let pending := List.filter is_pending (tasks (store w)) in
  let channel_id := default "#general" (Dict.lookup "SLACK_CHANNEL_ID" (environ w)) in
  outbox (fst (check_pending_tasks w)) =
    match pending with
    | [] => outbox w
    | _ => (outbox w ++ [reminder_for channel_id pending])%list
    end.
Proof.
  intros Hwf pending channel_id.
  destruct (pending_of_wf _ Hwf) as [Hpending Hpwf]. fold pending in Hpending, Hpwf.
  unfold check_pending_tasks, try_except, bind, lift, get_store, getenv, call, logger.
  cbn. rewrite Hpending. cbn -[take task_lines].
  destruct pending as [|t rest] eqn:Ep; cbn -[take task_lines]; [reflexivity|].
  rewrite (task_lines_wf (take 5 (t :: rest))) by now apply Forall_take.
  cbn -[take]. fold channel_id. unfold call_outcome, reminder_for.
  destruct (delivers w _); reflexivity.
Qed.

Lemma task_submit_stored body w :
  snd (handle_task_modal_submit body w) = Ok tt ->
  exists task,
    task_ok task /\
    tasks (store (fst (handle_task_modal_submit body w))) = (tasks (store w) ++ [task])%list /\
    environ (fst (handle_task_modal_submit body w)) = environ w.
Proof.
  unfold handle_task_modal_submit, bind, lift, ack, now, append_task, set_store, call.
  cbn.
  repeat match goal with
         | |- context [match getitem ?v ?k with Ok _ => _ | Raise _ => _ end] =>
             destruct (getitem v k); cbn; [|discriminate]
         | |- context [match get_optional ?v ?b ?a ?k with Ok _ => _ | Raise _ => _ end] =>
             destruct (get_optional v b a k); cbn; [|discriminate]
         end.
  intros _. eexists. split; [apply task_ok_new_task|]. split; reflexivity.
Qed.

(** X10. A task that was submitted and confirmed is on the next reminder:
    on a store of task records, the reminder that follows a successful
    submission is always sent, and it counts the tasks that were pending
    before and the new one after them. *)
Theorem submitted_task_is_reminded (body : pyval) (w : World) :
  Forall task_wf (tasks (store w)) ->
  snd (handle_task_modal_submit body w) = Ok tt ->
  let w1 := fst (handle_task_modal_submit body w) in
  let pending := List.filter is_pending (tasks (store w)) in
  let channel_id := default "#general" (Dict.lookup "SLACK_CHANNEL_ID" (environ w)) in
  exists task,
    tasks (store w1) = (tasks (store w) ++ [task])%list /\
    outbox (fst (check_pending_tasks w1)) =
      (outbox w1 ++ [reminder_for channel_id (pending ++ [task])])%list.
Proof.
  intros Hwf Hok w1 pending channel_id.
  destruct (task_submit_stored body w Hok) as (task & Htask & Htasks & Henv).
  fold w1 in Htasks, Henv. exists task. split; [assumption|].
  assert (Forall task_wf (tasks (store w1))) as Hwf1.
  { rewrite Htasks. apply Forall_app_2; [assumption|].
    apply Forall_singleton, Htask. }
  rewrite (check_pending_tasks_outbox w1 Hwf1), Htasks, Henv.
  rewrite List.filter_app. cbn. rewrite (task_ok_pending _ Htask).
  fold pending channel_id. destruct pending; reflexivity.
Qed.

End SubmitThenRemind.

(** ** Select menus and workflow messages *)

Lemma select_options_run options :
  Forall option_wf options -> select_options options = Ok (render_option <$> options).
Proof.
  induction 1 as [|opt options [[t Ht] [v Hv]] _ IH]; cbn; [reflexivity|].
  unfold getitem_str. rewrite Ht, Hv. cbn. rewrite IH. cbn.
  unfold render_option. now rewrite Ht, Hv.
Qed.

Lemma select_options_wf options opts :
  select_options options = Ok opts -> Forall option_wf options.
Proof.
  revert opts. induction options as [|opt options IH]; intros opts; cbn; [constructor|].
  unfold getitem_str.
  destruct (Dict.lookup "text" opt) as [t|] eqn:Ht; cbn; [|discriminate].
  destruct (Dict.lookup "value" opt) as [v|] eqn:Hv; cbn; [|discriminate].
  destruct (select_options options) as [tail|e]; cbn; [|discriminate].
  intros _. constructor; [split; eauto|]. now apply (IH tail).
Qed.

(** X11. A select menu is built exactly when each option has a text and a
    value; it then shows one option per given option, in the given order,
    with that text and value, and none for the empty list.  Otherwise the
    builder raises [KeyError] for "text" or "value". *)
Theorem select_menu_options (action_id placeholder : string)
    (options : list (list (string * string))) :
  match create_select_menu action_id options placeholder with
  | Ok menu =>
      Forall option_wf options /\
      py_lookup "options" menu = Some (PList (render_option <$> options)) /\
      py_lookup "placeholder" menu = Some (plain_text placeholder) /\
      py_lookup "action_id" menu = Some (PStr action_id)
  | Raise e =>
      ~ Forall option_wf options /\ (e = KeyError "text" \/ e = KeyError "value")
  end.
Proof.
  unfold create_select_menu.
  pose proof (select_options_raises options) as Hraise.
  destruct (select_options options) as [opts|e] eqn:Hopts; cbn.
  - pose proof (select_options_wf _ _ Hopts) as Hwf. split; [assumption|].
    rewrite (select_options_run _ Hwf) in Hopts. injection Hopts as <-.
    repeat split.
  - split; [|assumption]. intros Hwf.
    rewrite (select_options_run _ Hwf) in Hopts. discriminate.
Qed.

Lemma workflow_steps_raises steps :
  forall i blocks e,
    workflow_steps i steps blocks = Raise e ->
    e = KeyError "name" /\ ~ Forall (fun step => is_Some (Dict.lookup "name" step)) steps.
Proof.
  induction steps as [|step steps IH]; intros i blocks e; cbn; [discriminate|].
  unfold getitem_str. destruct (Dict.lookup "name" step) as [name|] eqn:Hname; cbn.
  - intros H. destruct (IH _ _ _ H) as [-> Hn]. split; [reflexivity|].
    intros Hall. apply Hn. now inversion Hall.
  - intros [= <-]. split; [reflexivity|]. intros Hall. inversion Hall as [|? ? [x Hx] _].
    congruence.
Qed.

Lemma workflow_steps_named steps :
  forall i blocks out,
    workflow_steps i steps blocks = Ok out ->
    Forall (fun step => is_Some (Dict.lookup "name" step)) steps.
Proof.
  induction steps as [|step steps IH]; intros i blocks out; cbn; [constructor|].
  unfold getitem_str. destruct (Dict.lookup "name" step) eqn:Hname; cbn; [|discriminate].
  intros H. constructor; [eauto|]. now apply (IH _ _ _ H).
Qed.

(** X12. A workflow message is built exactly when every step has a name;
    it then has four blocks and one more per step.  The only error the
    builder raises is [KeyError] for "name". *)
Theorem workflow_message_returns (title status description : string)
    (steps : list (list (string * string))) :
  match create_workflow_message title status description steps with
  | Ok blocks =>
      Forall (fun step => is_Some (Dict.lookup "name" step)) steps /\
      length blocks = 4 + length steps
  | Raise e =>
      ~ Forall (fun step => is_Some (Dict.lookup "name" step)) steps /\
      e = KeyError "name"
  end.
Proof.
  unfold create_workflow_message.
  destruct (workflow_steps 1 steps _) as [blocks|e] eqn:Hrun.
  - pose proof (workflow_steps_named _ _ _ _ Hrun) as Hall. split; [assumption|].
    rewrite (workflow_steps_run _ Hall) in Hrun.
    injection Hrun as <-. cbn [app length]. now rewrite length_imap.
  - destruct (workflow_steps_raises _ _ _ _ Hrun) as [-> Hn]. now split.
Qed.

(** ** Settings *)

(** X13. [Settings()] returns exactly when the port is an integer literal
    and both the bot token and the signing secret are set to a non-empty
    value; the app token and every default are optional.  It then holds
    the values of the environment, with port "3000" and host "0.0.0.0" where
    none is set.  The port is read first, so a port that is no integer is
    what is reported even with the credentials missing; of the two
    credentials the bot token is checked first. *)
Theorem settings_required {int : Type} (py_int : string -> option int)
    (env : list (string * string)) :
  let bot_token := env_get env "SLACK_BOT_TOKEN" "" in
  let signing_secret := env_get env "SLACK_SIGNING_SECRET" "" in
  let port_literal := env_get env "PORT" "3000" in
  match Settings_init py_int env with
  | inr s =>
      bot_token <> "" /\ signing_secret <> "" /\
      py_int port_literal = Some (port s) /\
      slack_bot_token s = bot_token /\
      slack_signing_secret s = signing_secret /\
      slack_app_token s = env_get env "SLACK_APP_TOKEN" "" /\
      host s = env_get env "HOST" "0.0.0.0"
  | inl (invalid_literal literal) =>
      py_int port_literal = None /\ literal = port_literal
  | inl (value_error msg) =>
      is_Some (py_int port_literal) /\
      ((bot_token = "" /\ msg = "SLACK_BOT_TOKEN environment variable is required") \/
       (bot_token <> "" /\ signing_secret = "" /\
        msg = "SLACK_SIGNING_SECRET environment variable is required"))
  end.
Proof.
  intros bot_token signing_secret port_literal. unfold Settings_init.
  fold bot_token signing_secret port_literal.
  destruct (py_int port_literal) as [p|] eqn:Hp; [|now split].
  cbn [truthy negb].
  destruct (String.eqb bot_token "") eqn:Hb; cbn.
  - apply String.eqb_eq in Hb. split; [eauto|]. left. now split.
  - apply String.eqb_neq in Hb.
    destruct (String.eqb signing_secret "") eqn:Hs; cbn.
    + apply String.eqb_eq in Hs. split; [eauto|]. right. now repeat split.
    + apply String.eqb_neq in Hs. now repeat split.
Qed.

(** ** The further properties at the worked inputs *)

Lemma daily_report_contained_witness :
  let w0 := world_on (mkStore eight_tasks [] [budget_approval]) in
  outbox (fst (send_daily_report w0)) = [daily_report w0].
Proof.
  intros w0.
  refine (proj1 (proj1 (proj2 (proj2 (proj2
            (daily_report_contained w0)))) _)).
  repeat constructor. eexists. reflexivity.
Defined.

Lemma request_then_resolve_witness :
  let w0 := world_on (mkStore [] [] []) in
  let w1 := fst (handle_request_approval (builtins := ascii_builtins) (click "" "U1") w0) in
  approvals (store (fst (handle_approve (builtins := ascii_builtins)
                           (click "req_1700000000.25" "U2") w1))) =
    [resolve_record "approved" (PStr "U2") "2023-11-14T22:13:20.250000" budget_approval].
Proof.
  intros w0 w1.
  exact (proj1 (proj2 (proj2
           (request_then_resolve (builtins := ascii_builtins)
              (click "" "U1") (PStr "U1") (PStr "C1")
              (click "req_1700000000.25" "U2") (PStr "U2") (PStr "C1")
              (PStr "1700000001.000100") w0 eq_refl eq_refl (Forall_nil_2 _)
              (click_payload _ _))))).
Defined.

Lemma same_timestamp_same_id_witness :
  let w0 := world_on (mkStore [] [] []) in
  let w2 :=
    fst (handle_request_approval (builtins := ascii_builtins) (click "" "U3")
           (fst (handle_request_approval (builtins := ascii_builtins) (click "" "U1") w0))) in
  py_lookup "id" <$> approvals (store w2) =
    [Some (PStr "req_1700000000.25"); Some (PStr "req_1700000000.25")].
Proof.
  intros w0 w2.
  pose proof (proj1 (same_timestamp_same_id (builtins := ascii_builtins)
                (click "" "U1") (PStr "U1") (PStr "C1")
                (click "" "U3") (PStr "U3") (PStr "C1")
                (click "req_1700000000.25" "U2") (PStr "U2") (PStr "C1")
                (PStr "1700000001.000100") w0 eq_refl eq_refl eq_refl eq_refl eq_refl
                (Forall_nil_2 _) (click_payload _ _))) as H.
  fold w2 in H. rewrite H. reflexivity.
Defined.

Lemma resolved_before_update_witness :
  let w0 := world_on (mkStore [] [] [budget_approval]) in
  snd (handle_approve (builtins := ascii_builtins)
         (click_without_message "req_1700000000.25" "U2") w0) = Raise (KeyError "message").
Proof.
  intros w0.
  exact (proj2 (proj2 (proj2 (proj1
           (resolved_before_update (builtins := ascii_builtins)
              (click_without_message "req_1700000000.25" "U2")
              (PStr "req_1700000000.25") (PStr "U2") (PStr "C1") (KeyError "message")
              w0 [] budget_approval [] eq_refl eq_refl eq_refl eq_refl eq_refl
              (Forall_nil_2 _) budget_approval_has_id))))).
Defined.

Lemma reachable_store_ok_witness :
  store_ok (store (fst (dispatch (builtins := ascii_builtins)
                          (View_create_task_modal ship_report_body)
                          (world_on (mkStore [] [] []))))).
Proof.
  apply (reachable_store_ok (builtins := ascii_builtins)).
  apply reachable_step, reachable_start. reflexivity.
Defined.

Lemma submitted_task_is_reminded_witness :
  let w0 := world_on (mkStore eight_tasks [] []) in
  exists task,
    tasks (store (fst (handle_task_modal_submit (builtins := ascii_builtins)
                         ship_report_body w0))) = (eight_tasks ++ [task])%list.
Proof.
  intros w0.
  destruct (submitted_task_is_reminded (builtins := ascii_builtins)
              ship_report_body w0 eight_tasks_wf eq_refl) as (task & Htask & _).
  exists task. exact Htask.
Defined.

(** The settings of an environment that sets the two credentials only, and
    of one that sets neither. *)
Example settings_of_credentials :
  Settings_init parse_port
    [("SLACK_BOT_TOKEN", "xoxb-1"); ("SLACK_SIGNING_SECRET", "s3")] =
    inr (mkSettings "xoxb-1" "" "s3" 3000 "0.0.0.0") /\
  Settings_init parse_port [("SLACK_BOT_TOKEN", ""); ("PORT", "80")] =
    inl (value_error "SLACK_BOT_TOKEN environment variable is required") /\
  Settings_init parse_port [("PORT", "http")] = inl (invalid_literal "http").
Proof. repeat split. Qed.

(** ** Blank fields and refused calls *)

(** C1, the code at a submission whose optional fields were left blank:
    the description and the due date are stored as the null values they
    came as, not as empty strings; the confirmation still reads "Due Date:
    Not set". *)
Lemma task_modal_submit_blank_fields :
  let r := handle_task_modal_submit (builtins := ascii_builtins) blank_fields_body
             (world_on (mkStore [] [] [])) in
  snd r = Ok tt /\
  tasks (store (fst r)) =
    [PDict [("id", PStr "task_1700000000.25");
            ("title", PStr "Ship report");
            ("description", PNone);
            ("priority", PStr "high");
            ("due_date", PNone);
            ("created_by", PStr "U1");
            ("created_at", PStr "2023-11-14T22:13:20.250000");
            ("status", PStr "pending")]] /\
  py_lookup "description" <$> tasks (store (fst r)) <> [Some (PStr "")] /\
  py_lookup "due_date" <$> tasks (store (fst r)) <> [Some (PStr "")] /\
  outbox (fst r) =
    [chat_postMessage (PStr "U1")
       (Some [create_header_block "✅ Task Created";
              create_section_block
                ("*Title:* Ship report" ++ nl ++ "*Priority:* high" ++ nl ++
                 "*Due Date:* Not set" ++ nl ++ "*Status:* Pending") None])
       "Task created: Ship report"].
Proof.
  vm_compute. repeat split; discriminate.
Qed.

(** C3, counterexample: the request id matches no approval, the platform
    refuses the update of the card, and both handlers raise. *)
Lemma unmatched_request_refused :
  let w0 := refusing_world_on (mkStore [] [] [budget_approval]) in
  let body := click "req_0" "U2" in
  Forall (other_id (PStr "req_0")) (approvals (store w0)) /\
  snd (handle_approve (builtins := ascii_builtins) body w0) = Raise SlackApiError /\
  snd (handle_reject (builtins := ascii_builtins) body w0) = Raise SlackApiError /\
  ~ (exists x, snd (handle_approve (builtins := ascii_builtins) body w0) = Ok x).
Proof.
  cbn zeta. repeat split.
  - repeat constructor. eexists. split; reflexivity.
  - intros [x H]. vm_compute in H. discriminate H.
Qed.
